(** * ReportActionsView and BaseTextInput: pagination, windowing and guards

    A shallow embedding of the report-actions list container
    (function [ReportActionsView]) and of the prefix padding lookup of
    [BaseTextInput] ([getCharacterPadding]).

    The component is a function re-run on every render.  A render reads its
    props, the values its hooks hand it and the cells that outlive a render
    ([useRef] and [useState]); the callbacks it builds close over the values
    of that render and, when invoked later, act on the cells as they are
    then.  Calls into the [Report] action module are fire-and-forget, so a
    callback is modelled as a computation that may update the cells, issue
    calls (recorded in order) and complete normally or by throwing. *)

From Stdlib Require Import ZArith.
From stdpp Require Import base option list strings.

Local Open Scope string_scope.
Local Open Scope list_scope.
Local Open Scope Z_scope.

(** ** JavaScript values and array methods used by the component *)

Module JS.

(** [x === y] on values of one type with decidable equality. *)
Definition strict_eq {A : Type} `{EqDecision A} (x y : A) : bool :=
  bool_decide (x = y).

(** Truthiness of a [string | undefined]: [undefined] and [''] are falsy. *)
Definition truthy (v : option string) : bool :=
  match v with
  | Some s => negb (strict_eq s "")
  | None => false
  end.

(** [String(v)] for a [string | undefined]. *)
Definition String_ (v : option string) : string :=
  match v with
  | Some s => s
  | None => "undefined"
  end.

(** [Array.prototype.findIndex], counting from [i]; [-1] when no element
    satisfies the predicate. *)
Fixpoint findIndex_from {A : Type} (p : A → bool) (i : Z) (l : list A) : Z :=
  match l with
  | [] => -1
  | x :: l' => if p x then i else findIndex_from p (i + 1) l'
  end.

Definition findIndex {A : Type} (p : A → bool) (l : list A) : Z :=
  findIndex_from p 0 l.

(** [Array.prototype.find] and [Array.prototype.findLast]. *)
Definition find {A : Type} (p : A → bool) (l : list A) : option A :=
  List.find p l.

Definition findLast {A : Type} (p : A → bool) (l : list A) : option A :=
  List.find p (rev l).

(** [Array.prototype.includes] on strings. *)
Definition includes (l : list string) (x : string) : bool :=
  existsb (strict_eq x) l.

(** [Array.prototype.slice(start)] with an integral [start]: a negative
    start counts from the end, and the start is clamped to the array. *)
Definition slice {A : Type} (start : Z) (l : list A) : list A :=
  let len := Z.of_nat (length l) in
  let k := if start <? 0 then Z.max (len + start) 0 else Z.min start len in
  drop (Z.to_nat k) l.

(** [l[0]] and [l.at(-1)]. *)
Definition first {A : Type} (l : list A) : option A := head l.
Definition at_last {A : Type} (l : list A) : option A := last l.

(** What a computation can throw. *)
Inductive Exception : Type :=
| TypeError (message : string)
| Error (message : string).

End JS.

Infix "===" := JS.strict_eq (at level 70, no associativity).

(** ** Data held by the store *)

Module OnyxTypes.

Record ReportAction : Type := {
  reportActionID : string;
  created : string;
  actionName : string;
  pendingAction : option string
}.

Record Report : Type := {
  reportID : string;
  lastVisibleActionCreated : option string
}.

#[global] Instance ReportAction_eq_dec : EqDecision ReportAction.
Proof. solve_decision. Defined.

#[global] Instance Report_eq_dec : EqDecision Report.
Proof. solve_decision. Defined.

End OnyxTypes.

(** ** Calls into the [Report] action module *)

Inductive ApiCall : Type :=
| openReport (reportID : string) (reportActionID : option string)
| reconnect (reportID : string)
| getOlderActions (reportID reportActionID : string)
| getNewerActions (reportID reportActionID : string).

#[global] Instance ApiCall_eq_dec : EqDecision ApiCall.
Proof. solve_decision. Defined.

Definition is_getOlderActions (c : ApiCall) : bool :=
  match c with getOlderActions _ _ => true | _ => false end.

Definition is_getNewerActions (c : ApiCall) : bool :=
  match c with getNewerActions _ _ => true | _ => false end.

Definition is_openReport (c : ApiCall) : bool :=
  match c with openReport _ _ => true | _ => false end.

Definition is_reconnect (c : ApiCall) : bool :=
  match c with reconnect _ => true | _ => false end.

(** Number of calls of one kind among the calls issued. *)
Definition count_calls (kind : ApiCall → bool) (cs : list ApiCall) : nat :=
  length (filter (λ c, kind c = true) cs).

(** ** Cells that outlive a render, and computations over them *)

Record Network : Type := { isOffline : bool }.

Record Cells : Type := {
  (** [isFirstLinkedActionRender.current] *)
  isFirstLinkedActionRender : bool;
  (** [contentListHeight.current], in whole layout units *)
  contentListHeight : Z;
  (** [prevNetworkRef.current] *)
  prevNetworkRef : Network;
  (** state cell behind [currentReportActionID] / [setCurrentReportActionID] *)
  currentReportActionID : string;
  (** state cell behind [isNavigatingToLinkedMessage] *)
  isNavigatingToLinkedMessage : bool
}.

Definition set_isFirstLinkedActionRender (b : bool) (c : Cells) : Cells :=
  {| isFirstLinkedActionRender := b;
     contentListHeight := contentListHeight c;
     prevNetworkRef := prevNetworkRef c;
     currentReportActionID := currentReportActionID c;
     isNavigatingToLinkedMessage := isNavigatingToLinkedMessage c |}.

Definition set_prevNetworkRef (n : Network) (c : Cells) : Cells :=
  {| isFirstLinkedActionRender := isFirstLinkedActionRender c;
     contentListHeight := contentListHeight c;
     prevNetworkRef := n;
     currentReportActionID := currentReportActionID c;
     isNavigatingToLinkedMessage := isNavigatingToLinkedMessage c |}.

Definition set_currentReportActionID (id : string) (c : Cells) : Cells :=
  {| isFirstLinkedActionRender := isFirstLinkedActionRender c;
     contentListHeight := contentListHeight c;
     prevNetworkRef := prevNetworkRef c;
     currentReportActionID := id;
     isNavigatingToLinkedMessage := isNavigatingToLinkedMessage c |}.

Inductive Completion (A : Type) : Type :=
| Normal (a : A)
| Throw (e : JS.Exception).

Arguments Normal {A} a.
Arguments Throw {A} e.

Record Outcome (A : Type) : Type := {
  completion : Completion A;
  cells : Cells;
  issued : list ApiCall
}.

Arguments completion {A} _.
Arguments cells {A} _.
Arguments issued {A} _.

(** A callback or effect body: from the cells as they are when it runs. *)
Definition Run (A : Type) : Type := Cells → Outcome A.

#[global] Instance Run_ret : MRet Run := λ A a c,
  {| completion := Normal a; cells := c; issued := [] |}.

#[global] Instance Run_bind : MBind Run := λ A B f m c,
  let o := m c in
  match completion o with
  | Normal a =>
      let o' := f a (cells o) in
      {| completion := completion o';
         cells := cells o';
         issued := issued o ++ issued o' |}
  | Throw e => {| completion := Throw e; cells := cells o; issued := issued o |}
  end.

Definition throw {A : Type} (e : JS.Exception) : Run A := λ c,
  {| completion := Throw e; cells := c; issued := [] |}.

Definition read {A : Type} (cell : Cells → A) : Run A := λ c,
  {| completion := Normal (cell c); cells := c; issued := [] |}.

Definition write (upd : Cells → Cells) : Run () := λ c,
  {| completion := Normal (); cells := upd c; issued := [] |}.

Definition call (r : ApiCall) : Run () := λ c,
  {| completion := Normal (); cells := c; issued := [r] |}.

(** The object of a member access [v.field]: reading a property of
    [undefined] throws. *)
Definition defined {A : Type} (v : option A) (field : string) : Run A :=
  match v with
  | Some a => mret a
  | None => throw (JS.TypeError ("Cannot read properties of undefined (reading '" +:+ field +:+ "')"))
  end.

Definition completes {A : Type} (o : Outcome A) : bool :=
  match completion o with Normal _ => true | Throw _ => false end.

(** ** The report-actions list container *)

Module ReportActionsView.

Import OnyxTypes.

(** What the component imports from modules outside this excerpt.  Each is
    kept as a parameter of the development. *)
Record Imports : Type := {
  (** [ReportActionsUtils.getCombinedReportActionsForDisplay] *)
  getCombinedReportActionsForDisplay :
    list ReportAction → list ReportAction → list ReportAction;
  (** default export of [./getInitialPaginationSize], used as a number *)
  getInitialPaginationSize : Z;
  (** default export of [@libs/shouldFetchReport] *)
  shouldFetchReport : Report → bool;
  (** default export of [@libs/getIsReportFullyVisible] *)
  getIsReportFullyVisible : bool → bool;
  (** [CONST.REPORT.ACTIONS.TYPE.CREATED] *)
  ACTIONS_TYPE_CREATED : string;
  (** [CONST.RED_BRICK_ROAD_PENDING_ACTION.DELETE] *)
  PENDING_ACTION_DELETE : string
}.

Definition DIFF_BETWEEN_SCREEN_HEIGHT_AND_LIST : Z := 120.
Definition SPACER : Z := 16.

(** Everything one render reads: the props, what the hooks return, and the
    cells as they are during the render. *)
Record Render : Type := {
  report : Report;
  transactionThreadReport : option Report;
  allReportActions : list ReportAction;
  transactionThreadReportActions : list ReportAction;
  isLoadingInitialReportActions : bool;
  isLoadingOlderReportActions : bool;
  isLoadingNewerReportActions : bool;
  isReadyForCommentLinking : bool;
  (** [route?.params?.reportActionID] *)
  reportActionID : option string;
  (** [useNetwork()] *)
  network : Network;
  (** [useWindowDimensions().windowHeight], in whole layout units *)
  windowHeight : Z;
  (** [useIsFocused()] *)
  isFocused : bool;
  (** the cells as this render reads them *)
  held : Cells
}.

(** One entry of [reportActionIDMap]. *)
Record IDMapItem : Type := {
  item_reportActionID : string;
  item_reportID : option string
}.

Section Component.

Context (lib : Imports).

Definition reportID (r : Render) : string := OnyxTypes.reportID (report r).

Definition isLoading (r : Render) : bool :=
  (JS.truthy (reportActionID r) && isLoadingInitialReportActions r)
  || negb (isReadyForCommentLinking r).

Definition isReportFullyVisible (r : Render) : bool :=
  getIsReportFullyVisible lib (isFocused r).

Definition combinedReportActions (r : Render) : list ReportAction :=
  getCombinedReportActionsForDisplay lib (allReportActions r) (transactionThreadReportActions r).

Definition indexOfLinkedAction (r : Render) : Z :=
  if negb (JS.truthy (reportActionID r)) || isLoading r then -1
  else
    JS.findIndex
      (λ obj, OnyxTypes.reportActionID obj
              === (if isFirstLinkedActionRender (held r)
                   then JS.String_ (reportActionID r)
                   else currentReportActionID (held r)))
      (combinedReportActions r).

(** The window: the [reportActions] memo of the component. *)
Definition reportActions (r : Render) : list ReportAction :=
  if negb (JS.truthy (reportActionID r)) then combinedReportActions r
  else if isLoading r || (indexOfLinkedAction r === -1) then []
  else if isFirstLinkedActionRender (held r) then
    JS.slice (indexOfLinkedAction r) (combinedReportActions r)
  else
    let paginationSize := getInitialPaginationSize lib in
    JS.slice (Z.max (indexOfLinkedAction r - paginationSize) 0) (combinedReportActions r).

Definition reportActionIDMap (r : Render) : list IDMapItem :=
  let reportActionIDs := map OnyxTypes.reportActionID (allReportActions r) in
  map (λ action,
         {| item_reportActionID := OnyxTypes.reportActionID action;
            item_reportID :=
              if JS.includes reportActionIDs (OnyxTypes.reportActionID action)
              then Some (reportID r)
              else OnyxTypes.reportID <$> transactionThreadReport r |})
      (reportActions r).

Definition hasMoreCached (r : Render) : bool :=
  (length (reportActions r) <? length (combinedReportActions r))%nat.

Definition newestReportAction (r : Render) : option ReportAction :=
  JS.first (reportActions r).

Definition oldestReportAction (r : Render) : option ReportAction :=
  JS.at_last (reportActions r).

Definition hasNewestReportAction (r : Render) : bool :=
  let newestCreated := created <$> JS.first (reportActions r) in
  (newestCreated === lastVisibleActionCreated (report r))
  || (newestCreated === (transactionThreadReport r ≫= lastVisibleActionCreated)).

Definition hasCreatedAction (r : Render) : bool :=
  (actionName <$> oldestReportAction r) === Some (ACTIONS_TYPE_CREATED lib).

(** *** Calls guarded by [shouldFetchReport] *)

Definition openReportIfNecessary (r : Render) : Run () :=
  if negb (shouldFetchReport lib (report r)) then mret ()
  else call (openReport (reportID r) (reportActionID r)).

Definition reconnectReportIfNecessary (r : Render) : Run () :=
  if negb (shouldFetchReport lib (report r)) then mret ()
  else call (reconnect (reportID r)).

(** *** Pagination callbacks *)

Definition fetchNewerAction (r : Render) (newest : option ReportAction) : Run () :=
  if isLoadingNewerReportActions r || isLoadingInitialReportActions r then mret ()
  else
    match transactionThreadReport r with
    | Some thread =>
        let newestActionCurrentReport :=
          JS.find (λ item, item_reportID item === Some (reportID r)) (reportActionIDMap r) in
        call (getNewerActions
                (default "0" (newestActionCurrentReport ≫= item_reportID))
                (default "0" (item_reportActionID <$> newestActionCurrentReport)));;
        let newestActionTransactionThreadReport :=
          JS.find (λ item, item_reportID item === Some (OnyxTypes.reportID thread))
                  (reportActionIDMap r) in
        call (getNewerActions
                (default "0" (newestActionTransactionThreadReport ≫= item_reportID))
                (default "0" (item_reportActionID <$> newestActionTransactionThreadReport)))
    | None =>
        newestReportAction ← defined newest "reportActionID";
        call (getNewerActions (reportID r) (OnyxTypes.reportActionID newestReportAction))
    end.

Definition handleReportActionPagination (r : Render) (firstReportActionID : string) : Run () :=
  (if negb (hasMoreCached r) then
     write (set_isFirstLinkedActionRender false);;
     fetchNewerAction r (newestReportAction r)
   else mret ());;
  first ← read isFirstLinkedActionRender;
  (if first : bool then write (set_isFirstLinkedActionRender false) else mret ());;
  write (set_currentReportActionID firstReportActionID).

Definition checkIfContentSmallerThanList (r : Render) : Run bool :=
  h ← read contentListHeight;
  mret (h <? windowHeight r - DIFF_BETWEEN_SCREEN_HEIGHT_AND_LIST - SPACER).

Definition loadOlderChats (r : Render) : Run () :=
  if isOffline (network r) || isLoadingOlderReportActions r || isLoadingInitialReportActions r
  then mret ()
  else
    match oldestReportAction r with
    | None => mret ()
    | Some oldest =>
        if hasCreatedAction r then mret ()
        else
          match transactionThreadReport r with
          | Some thread =>
              let oldestActionCurrentReport :=
                JS.findLast (λ item, item_reportID item === Some (reportID r))
                            (reportActionIDMap r) in
              call (getNewerActions
                      (default "0" (oldestActionCurrentReport ≫= item_reportID))
                      (default "0" (item_reportActionID <$> oldestActionCurrentReport)));;
              let oldestActionTransactionThreadReport :=
                JS.findLast (λ item, item_reportID item === Some (OnyxTypes.reportID thread))
                            (reportActionIDMap r) in
              call (getNewerActions
                      (default "0" (oldestActionTransactionThreadReport ≫= item_reportID))
                      (default "0" (item_reportActionID <$> oldestActionTransactionThreadReport)))
          | None =>
              call (getOlderActions (reportID r) (OnyxTypes.reportActionID oldest))
          end
    end.

(** The first three operands of the guard short-circuit; only when all are
    false is [newestReportAction.pendingAction] evaluated. *)
Definition loadNewerChats (r : Render) : Run () :=
  if isLoadingInitialReportActions r || isLoadingOlderReportActions r || isOffline (network r)
  then mret ()
  else
    newest ← defined (newestReportAction r) "pendingAction";
    if pendingAction newest === Some (PENDING_ACTION_DELETE lib) then mret ()
    else
      smaller ← checkIfContentSmallerThanList r;
      let isLoadingOlderReportsFirstNeeded :=
        smaller && (23 <? length (reportActions r))%nat in
      if (JS.truthy (reportActionID r) && (-1 <? indexOfLinkedAction r)
          && negb (hasNewestReportAction r) && negb isLoadingOlderReportsFirstNeeded)
         || (negb (JS.truthy (reportActionID r))
             && negb (hasNewestReportAction r) && negb isLoadingOlderReportsFirstNeeded)
      then
        handleReportActionPagination r (OnyxTypes.reportActionID newest)
      else mret ().

(** *** The reaction to a change of the network signal *)

Definition networkEffect (r : Render) : Run () :=
  prevNetwork ← read prevNetworkRef;
  let wasNetworkChangeDetected := isOffline prevNetwork && negb (isOffline (network r)) in
  (if wasNetworkChangeDetected then
     if isReportFullyVisible r then openReportIfNecessary r
     else reconnectReportIfNecessary r
   else mret ());;
  write (set_prevNetworkRef (network r)).

(** *** What the component returns *)

Definition shouldEnableAutoScroll (r : Render) : bool :=
  hasNewestReportAction r
  && (negb (JS.truthy (reportActionID r)) || negb (isNavigatingToLinkedMessage (held r))).

(** The props handed to [ReportActionsList] that the claims are about. *)
Record ListProps : Type := {
  list_reportActions : list ReportAction;
  list_loadOlderChats : Run ();
  list_loadNewerChats : Run ();
  list_isLoadingInitialReportActions : bool;
  list_isLoadingOlderReportActions : bool;
  list_isLoadingNewerReportActions : bool;
  list_shouldEnableAutoScrollToTopThreshold : bool
}.

(** [null] when the window is empty, the list element otherwise. *)
Definition ReportActionsView (r : Render) : option ListProps :=
  if (length (reportActions r) =? 0)%nat then None
  else Some {|
    list_reportActions := reportActions r;
    list_loadOlderChats := loadOlderChats r;
    list_loadNewerChats := loadNewerChats r;
    list_isLoadingInitialReportActions := isLoadingInitialReportActions r;
    list_isLoadingOlderReportActions := isLoadingOlderReportActions r;
    list_isLoadingNewerReportActions := isLoadingNewerReportActions r;
    list_shouldEnableAutoScrollToTopThreshold := shouldEnableAutoScroll r
  |}.

End Component.

End ReportActionsView.

(** ** The prefix padding lookup of the text input *)

Module BaseTextInput.

Section Padding.

(** [CONST.POLICY.ROOM_PREFIX], defined outside this excerpt. *)
Context (ROOM_PREFIX : string).

(** The [switch] compares with [===]; the [default] arm throws. *)
Definition getCharacterPadding (prefix : string) : Completion Z :=
  if prefix === ROOM_PREFIX then Normal 10
  else Throw (JS.Error ("Prefix " +:+ prefix +:+ " has no padding assigned.")).

End Padding.

End BaseTextInput.

(** ** Sample data *)

Module Sample.

Import OnyxTypes ReportActionsView.

(** A stand-in for the combiner: merges two newest-first sequences by
    creation timestamp.  Only the examples below use it. *)
Fixpoint mergeNewestFirst (xs ys : list ReportAction) : list ReportAction :=
  let fix into (ys : list ReportAction) : list ReportAction :=
    match xs, ys with
    | [], _ => ys
    | _, [] => xs
    | x :: xs', y :: ys' =>
        if String.leb (created y) (created x)
        then x :: mergeNewestFirst xs' ys
        else y :: into ys'
    end
  in into ys.

Definition imports : Imports := {|
  getCombinedReportActionsForDisplay := mergeNewestFirst;
  getInitialPaginationSize := 15;
  shouldFetchReport := λ _, true;
  getIsReportFullyVisible := λ isFocused, isFocused;
  ACTIONS_TYPE_CREATED := "CREATED";
  PENDING_ACTION_DELETE := "delete"
|}.

(** The same environment with a [shouldFetchReport] that declines. *)
Definition importsDeclining : Imports := {|
  getCombinedReportActionsForDisplay := mergeNewestFirst;
  getInitialPaginationSize := 15;
  shouldFetchReport := λ _, false;
  getIsReportFullyVisible := λ isFocused, isFocused;
  ACTIONS_TYPE_CREATED := "CREATED";
  PENDING_ACTION_DELETE := "delete"
|}.

Definition comment (id stamp : string) : ReportAction :=
  {| OnyxTypes.reportActionID := id; created := stamp;
     actionName := "ADDCOMMENT"; pendingAction := None |}.

Definition a1 : ReportAction := comment "1" "2024-05-01 10:00:01.000".
Definition a2 : ReportAction := comment "2" "2024-05-01 10:00:02.000".
Definition a3 : ReportAction := comment "3" "2024-05-01 10:00:03.000".
Definition t1 : ReportAction := comment "71" "2024-05-01 09:59:00.000".

(** The action that marks the beginning of a chat. *)
Definition a0 : ReportAction :=
  {| OnyxTypes.reportActionID := "0"; created := "2024-05-01 10:00:00.000";
     actionName := "CREATED"; pendingAction := None |}.

Definition online : Network := {| isOffline := false |}.
Definition offline : Network := {| isOffline := true |}.

Definition freshCells : Cells := {|
  isFirstLinkedActionRender := true;
  contentListHeight := 0;
  prevNetworkRef := online;
  currentReportActionID := "";
  isNavigatingToLinkedMessage := false
|}.

Definition chat : Report :=
  {| OnyxTypes.reportID := "R"; lastVisibleActionCreated := Some "2024-05-01 10:00:03.000" |}.

Definition thread : Report :=
  {| OnyxTypes.reportID := "T"; lastVisibleActionCreated := Some "2024-05-01 09:59:00.000" |}.

(** A chat holding [a3; a2; a1] (newest first), ready, nothing in flight. *)
Definition plain : Render := {|
  report := chat;
  transactionThreadReport := None;
  allReportActions := [a3; a2; a1];
  transactionThreadReportActions := [];
  isLoadingInitialReportActions := false;
  isLoadingOlderReportActions := false;
  isLoadingNewerReportActions := false;
  isReadyForCommentLinking := true;
  reportActionID := None;
  network := online;
  windowHeight := 800;
  isFocused := true;
  held := freshCells
|}.

Definition with_link (target : string) (r : Render) : Render := {|
  report := report r;
  transactionThreadReport := transactionThreadReport r;
  allReportActions := allReportActions r;
  transactionThreadReportActions := transactionThreadReportActions r;
  isLoadingInitialReportActions := isLoadingInitialReportActions r;
  isLoadingOlderReportActions := isLoadingOlderReportActions r;
  isLoadingNewerReportActions := isLoadingNewerReportActions r;
  isReadyForCommentLinking := isReadyForCommentLinking r;
  reportActionID := Some target;
  network := network r;
  windowHeight := windowHeight r;
  isFocused := isFocused r;
  held := held r
|}.

Definition with_network (n : Network) (r : Render) : Render := {|
  report := report r;
  transactionThreadReport := transactionThreadReport r;
  allReportActions := allReportActions r;
  transactionThreadReportActions := transactionThreadReportActions r;
  isLoadingInitialReportActions := isLoadingInitialReportActions r;
  isLoadingOlderReportActions := isLoadingOlderReportActions r;
  isLoadingNewerReportActions := isLoadingNewerReportActions r;
  isReadyForCommentLinking := isReadyForCommentLinking r;
  reportActionID := reportActionID r;
  network := n;
  windowHeight := windowHeight r;
  isFocused := isFocused r;
  held := held r
|}.

Definition with_held (c : Cells) (r : Render) : Render := {|
  report := report r;
  transactionThreadReport := transactionThreadReport r;
  allReportActions := allReportActions r;
  transactionThreadReportActions := transactionThreadReportActions r;
  isLoadingInitialReportActions := isLoadingInitialReportActions r;
  isLoadingOlderReportActions := isLoadingOlderReportActions r;
  isLoadingNewerReportActions := isLoadingNewerReportActions r;
  isReadyForCommentLinking := isReadyForCommentLinking r;
  reportActionID := reportActionID r;
  network := network r;
  windowHeight := windowHeight r;
  isFocused := isFocused r;
  held := c
|}.

Definition with_actions (actions : list ReportAction) (r : Render) : Render := {|
  report := report r;
  transactionThreadReport := transactionThreadReport r;
  allReportActions := actions;
  transactionThreadReportActions := transactionThreadReportActions r;
  isLoadingInitialReportActions := isLoadingInitialReportActions r;
  isLoadingOlderReportActions := isLoadingOlderReportActions r;
  isLoadingNewerReportActions := isLoadingNewerReportActions r;
  isReadyForCommentLinking := isReadyForCommentLinking r;
  reportActionID := reportActionID r;
  network := network r;
  windowHeight := windowHeight r;
  isFocused := isFocused r;
  held := held r
|}.

(** A one-transaction report: the chat holds [a2], its transaction thread
    [T] holds [t1]; the merged sequence is [a2; t1]. *)
Definition withThread : Render := {|
  report := chat;
  transactionThreadReport := Some thread;
  allReportActions := [a2];
  transactionThreadReportActions := [t1];
  isLoadingInitialReportActions := false;
  isLoadingOlderReportActions := false;
  isLoadingNewerReportActions := false;
  isReadyForCommentLinking := true;
  reportActionID := None;
  network := online;
  windowHeight := 800;
  isFocused := true;
  held := freshCells
|}.

(** The cells after the first linked render, with the pointer at [id]. *)
Definition pointingAt (id : string) : Cells := {|
  isFirstLinkedActionRender := false;
  contentListHeight := 0;
  prevNetworkRef := online;
  currentReportActionID := id;
  isNavigatingToLinkedMessage := false
|}.

(** The cells of a client that was offline at the previous render. *)
Definition wasOfflineCells : Cells := set_prevNetworkRef offline freshCells.

Definition digit (n : nat) : string := String (Ascii.ascii_of_nat (48 + n)) "".

Definition twoDigits (n : nat) : string := digit (n / 10) +:+ digit (n mod 10).

(** Twenty-four entries, newest first. *)
Definition longChat : list ReportAction :=
  map (λ n, comment (twoDigits n) ("2024-05-01 10:00:" +:+ twoDigits n +:+ ".000"))
      (rev (seq 0 24)).

(** First render of a deep link to [a2] in the chat [a3; a2; a1]. *)
Definition linkedFirstRender : Render := with_link "2" plain.

(** A later render of a deep link into [longChat], pointer at entry 20. *)
Definition linkedLaterRender : Render :=
  with_held (pointingAt "03") (with_link "10" (with_actions longChat plain)).

(** A chat whose window is empty, on a client that is offline. *)
Definition emptyOffline : Render := with_network offline (with_actions [] plain).

(** A chat whose window is empty, online and with nothing in flight. *)
Definition emptyOnline : Render := with_actions [] plain.

End Sample.

(** ** More of the report-actions list container *)

Module ReportActionsViewEffects.

Import OnyxTypes ReportActionsView.

Definition set_isNavigatingToLinkedMessage (b : bool) (c : Cells) : Cells :=
  {| isFirstLinkedActionRender := isFirstLinkedActionRender c;
     contentListHeight := contentListHeight c;
     prevNetworkRef := prevNetworkRef c;
     currentReportActionID := currentReportActionID c;
     isNavigatingToLinkedMessage := b |}.

(** The next render of the component with the same props and hook values,
    reading the cells as they are by then. *)
Definition rerender (c : Cells) (r : Render) : Render := {|
  report := report r;
  transactionThreadReport := transactionThreadReport r;
  allReportActions := allReportActions r;
  transactionThreadReportActions := transactionThreadReportActions r;
  isLoadingInitialReportActions := isLoadingInitialReportActions r;
  isLoadingOlderReportActions := isLoadingOlderReportActions r;
  isLoadingNewerReportActions := isLoadingNewerReportActions r;
  isReadyForCommentLinking := isReadyForCommentLinking r;
  reportActionID := reportActionID r;
  network := network r;
  windowHeight := windowHeight r;
  isFocused := isFocused r;
  held := c
|}.

(** A task handed to [InteractionManager.runAfterInteractions] whose body
    starts a timer: [setTimeout(task, delay)]. *)
Inductive Deferred : Type :=
| afterInteractionsTimeout (delay : Z) (task : Run ()).

Section Effects.

Context (lib : Imports).

(** The mount reaction (dependency list [[]]): with a deep-link target it
    does nothing; otherwise it hands [openReportIfNecessary] to
    [InteractionManager.runAfterInteractions].  The result is the deferred
    task, if any. *)
Definition mountEffect (r : Render) : option (Run ()) :=
  if JS.truthy (reportActionID r) then None
  else Some (openReportIfNecessary lib r).

(** The reaction to a route change (also run on mount). *)
Definition linkEffect (r : Render) : Run () :=
  if negb (JS.truthy (reportActionID r)) then mret ()
  else call (openReport (reportID r) (reportActionID r)).

(** [newestReportAction?.reportActionID === reportActionID] *)
Definition isTheFirstReportActionIsLinked (r : Render) : bool :=
  (OnyxTypes.reportActionID <$> newestReportAction lib r) === reportActionID r.

(** The reaction that maintains [isNavigatingToLinkedMessage]: it sets the
    flag at once when the newest held entry is the linked one, and otherwise
    defers clearing it.  The result is the deferred work, if any. *)
Definition navigatingEffect (r : Render) : Run (option Deferred) :=
  if isTheFirstReportActionIsLinked r then
    write (set_isNavigatingToLinkedMessage true);;
    mret None
  else
    mret (Some (afterInteractionsTimeout 10 (write (set_isNavigatingToLinkedMessage false)))).

End Effects.

(** *** The comparison handed to [React.memo] *)

Record Session : Type := { authTokenType : option string }.

#[global] Instance Session_eq_dec : EqDecision Session.
Proof. solve_decision. Defined.

(** [ReportActionsViewProps]; an optional prop that was not passed is [None]. *)
Record Props : Type := {
  props_report : Report;
  props_transactionThreadReport : option Report;
  props_session : option Session;
  props_parentReportAction : option ReportAction;
  props_reportActions : option (list ReportAction);
  props_transactionThreadReportActions : list ReportAction;
  props_isLoadingInitialReportActions : option bool;
  props_isLoadingOlderReportActions : option bool;
  props_isLoadingNewerReportActions : option bool;
  props_isReadyForCommentLinking : option bool
}.

(** [lodashIsEqual] on the plain data above is structural equality. *)
Definition lodashIsEqual {A : Type} `{EqDecision A} (x y : A) : bool :=
  bool_decide (x = y).

Definition arePropsEqual (oldProps newProps : Props) : bool :=
  if negb (lodashIsEqual (props_isReadyForCommentLinking oldProps)
                         (props_isReadyForCommentLinking newProps)) then false
  else if negb (lodashIsEqual (props_reportActions oldProps) (props_reportActions newProps))
  then false
  else if negb (lodashIsEqual (props_transactionThreadReportActions oldProps)
                              (props_transactionThreadReportActions newProps)) then false
  else if negb (lodashIsEqual (props_parentReportAction oldProps)
                              (props_parentReportAction newProps)) then false
  else if negb ((props_session oldProps ≫= authTokenType)
                === (props_session newProps ≫= authTokenType)) then false
  else if negb (props_isLoadingInitialReportActions oldProps
                === props_isLoadingInitialReportActions newProps) then false
  else if negb (props_isLoadingOlderReportActions oldProps
                === props_isLoadingOlderReportActions newProps) then false
  else if negb (props_isLoadingNewerReportActions oldProps
                === props_isLoadingNewerReportActions newProps) then false
  else lodashIsEqual (props_report oldProps) (props_report newProps).

End ReportActionsViewEffects.

(** ** State and recorded effects, for the code outside the list container *)

Module Effectful.

(** A computation over a state [S] that records events [E] in order. *)
Definition Act (S E A : Type) : Type := S → A * S * list E.

#[global] Instance Act_ret {S E : Type} : MRet (Act S E) := λ A a s, (a, s, []).

#[global] Instance Act_bind {S E : Type} : MBind (Act S E) := λ A B f m s,
  let '(a, s1, es1) := m s in
  let '(b, s2, es2) := f a s1 in
  (b, s2, es1 ++ es2).

Definition get {S E A : Type} (proj : S → A) : Act S E A := λ s, (proj s, s, []).

Definition modify {S E : Type} (upd : S → S) : Act S E () := λ s, ((), upd s, []).

Definition emit {S E : Type} (e : E) : Act S E () := λ s, ((), s, [e]).

Definition result {S E A : Type} (o : A * S * list E) : A := o.1.1.
Definition state {S E A : Type} (o : A * S * list E) : S := o.1.2.
Definition events {S E A : Type} (o : A * S * list E) : list E := o.2.

End Effectful.

(** ** The throttle of the sound player *)

Module Sound.

Import Effectful.

(** The handle returned by [setTimeout(processQueue, delay)]. *)
Inductive Timer : Type := setTimeout (delay : Z).

Section WithMinimalExecutionTime.

Context {Args : Type}.

(** The variables [withMinimalExecutionTime] closes over.  A queue entry
    [[() => func(...args), resolve]] is represented by its [args]; [func] is
    taken to return normally, as [playSound] does. *)
Record Closure : Type := {
  queue : list Args;
  timerId : option Timer
}.

Inductive Event : Type :=
| func (args : Args)      (** [nextFunc()], that is [func(...args)] *)
| resolve (args : Args).  (** the promise returned for that call resolves *)

Definition set_queue (q : list Args) (s : Closure) : Closure :=
  {| queue := q; timerId := timerId s |}.

Definition set_timerId (t : option Timer) (s : Closure) : Closure :=
  {| queue := queue s; timerId := t |}.

Context (minExecutionTime : Z).

Definition processQueue : Act Closure Event () :=
  q ← get queue;
  match q with
  | next :: rest =>
      modify (set_queue rest);;
      emit (func next);;
      emit (resolve next);;
      modify (set_timerId (Some (setTimeout minExecutionTime)))
  | [] => modify (set_timerId None)
  end.

(** The function [withMinimalExecutionTime] returns. *)
Definition throttled (args : Args) : Act Closure Event () :=
  modify (λ s, set_queue (queue s ++ [args]) s);;
  t ← get timerId;
  match t with
  | None => processQueue
  | Some _ => mret ()
  end.

(** What happens to the closure: a call of the returned function, or the
    pending timer expiring and running its callback [processQueue]. *)
Inductive Input : Type :=
| Call (args : Args)
| TimerFires.

Definition step (i : Input) : Act Closure Event () :=
  match i with
  | Call args => throttled args
  | TimerFires =>
      t ← get timerId;
      match t with
      | Some _ => processQueue
      | None => mret ()
      end
  end.

Fixpoint run (inputs : list Input) : Act Closure Event () :=
  match inputs with
  | [] => mret ()
  | i :: inputs' => step i;; run inputs'
  end.

Definition initial : Closure := {| queue := []; timerId := None |}.

Definition calls (inputs : list Input) : list Args :=
  omap (λ i, match i with Call args => Some args | TimerFires => None end) inputs.

Definition is_TimerFires (i : Input) : bool :=
  match i with TimerFires => true | Call _ => false end.

Definition fires (inputs : list Input) : nat :=
  length (filter (λ i, is_TimerFires i = true) inputs).

Definition executed (es : list Event) : list Args :=
  omap (λ e, match e with func args => Some args | resolve _ => None end) es.

Definition resolved (es : list Event) : list Args :=
  omap (λ e, match e with resolve args => Some args | func _ => None end) es.

(** [1] when no timer is pending, [0] otherwise. *)
Definition idle (s : Closure) : nat :=
  match timerId s with Some _ => 0 | None => 1 end.

(** Either a timer with the delay of the closure is pending, or none is and
    nothing is queued. *)
Definition settled (s : Closure) : Prop :=
  timerId s = Some (setTimeout minExecutionTime) ∨ (timerId s = None ∧ queue s = []).

End WithMinimalExecutionTime.

(** The default export: [withMinimalExecutionTime(playSound, 300)]. *)
Definition playSoundThrottled (soundFile : string) : Act Closure Event () :=
  throttled 300 soundFile.

End Sound.

(** ** The label and value bookkeeping of the text input *)

Module BaseTextInputLabel.

Import Effectful.

Record Props : Type := {
  value : option string;
  defaultValue : option string;
  forceActiveLabel : bool;
  prefixCharacter : option string;
  (** whether [inputProps.onFocus], [inputProps.onBlur] and
      [inputProps.onChangeText] were passed *)
  has_onFocus : bool;
  has_onBlur : bool;
  has_onChangeText : bool
}.

(** [isLabelActive.current], [hasValueRef.current] and the [isFocused]
    state. *)
Record Refs : Type := {
  isLabelActive : bool;
  hasValueRef : bool;
  isFocused : bool
}.

Definition set_isLabelActive (b : bool) (s : Refs) : Refs :=
  {| isLabelActive := b; hasValueRef := hasValueRef s; isFocused := isFocused s |}.

Definition set_hasValueRef (b : bool) (s : Refs) : Refs :=
  {| isLabelActive := isLabelActive s; hasValueRef := b; isFocused := isFocused s |}.

Definition set_isFocused (b : bool) (s : Refs) : Refs :=
  {| isLabelActive := isLabelActive s; hasValueRef := hasValueRef s; isFocused := b |}.

(** One render: the props and the cells as the render reads them. *)
Record Render : Type := {
  props : Props;
  held : Refs
}.

(** [s.length > 0] and [s.length !== 0]: only emptiness matters, and a
    string is empty whatever the unit its length is counted in. *)
Definition nonEmpty (s : string) : bool := (0 <? String.length s)%nat.

(** [value ?? defaultValue ?? ''] *)
Definition initialValue (p : Props) : string :=
  default "" (match value p with Some v => Some v | None => defaultValue p end).

Definition initialActiveLabel (p : Props) : bool :=
  forceActiveLabel p || nonEmpty (initialValue p) || JS.truthy (prefixCharacter p).

(** The cells at mount. *)
Definition mount (p : Props) : Refs := {|
  isLabelActive := initialActiveLabel p;
  hasValueRef := nonEmpty (initialValue p);
  isFocused := false
|}.

Section Label.

(** The numbers of [styleConst], defined outside this excerpt. *)
Context {number : Type}.
Context (ACTIVE_LABEL_TRANSLATE_Y ACTIVE_LABEL_SCALE : number).
Context (INACTIVE_LABEL_TRANSLATE_Y INACTIVE_LABEL_SCALE : number).

Inductive Event : Type :=
| animateLabel (translateY scale : number)
| onInputChange (newValue : string)
| onChangeText (newValue : string)
| onBlurProp
| onFocusProp.

Definition activateLabel (p : Props) : Act Refs Event () :=
  let newValue := default "" (value p) in
  active ← get isLabelActive;
  if (Z.of_nat (String.length newValue) <? 0) || (active : bool) then mret ()
  else
    emit (animateLabel ACTIVE_LABEL_TRANSLATE_Y ACTIVE_LABEL_SCALE);;
    modify (set_isLabelActive true).

Definition deactivateLabel (p : Props) : Act Refs Event () :=
  let newValue := default "" (value p) in
  if forceActiveLabel p || nonEmpty newValue || JS.truthy (prefixCharacter p) then mret ()
  else
    emit (animateLabel INACTIVE_LABEL_TRANSLATE_Y INACTIVE_LABEL_SCALE);;
    modify (set_isLabelActive false).

(** [fuel] bounds the depth of the call stack; the result [false] stands for
    the [RangeError] raised when it is exhausted, which unwinds every
    frame. *)
Fixpoint onFocus (fuel : nat) (p : Props) : Act Refs Event bool :=
  match fuel with
  | O => mret false
  | S fuel' =>
      returned ← (if has_onFocus p then onFocus fuel' p else mret true);
      if (returned : bool) then modify (set_isFocused true);; mret true
      else mret false
  end.

Definition onBlur (p : Props) : Act Refs Event () :=
  (if has_onBlur p then emit onBlurProp else mret ());;
  modify (set_isFocused false).

Definition hasValue (r : Render) : bool :=
  nonEmpty (default "" (value (props r))) || hasValueRef (held r).

(** The reaction that activates or deactivates the label;
    [isInputAutoFilled] is the answer of the imported predicate. *)
Definition labelEffect (r : Render) (isInputAutoFilled : bool) : Act Refs Event () :=
  if hasValue r || isFocused (held r) || isInputAutoFilled
  then activateLabel (props r)
  else deactivateLabel (props r).

(** The reaction that keeps [hasValueRef] in sync when the value prop is
    cleared. *)
Definition valueSyncEffect (p : Props) : Act Refs Event () :=
  if bool_decide (value p = None) || JS.truthy (value p) then mret ()
  else modify (set_hasValueRef false).

(** [onInputChange] has a default and is always called. *)
Definition setValue (p : Props) (newValue : string) : Act Refs Event () :=
  emit (onInputChange newValue);;
  (if has_onChangeText p then emit (onChangeText newValue) else mret ());;
  if nonEmpty newValue then
    modify (set_hasValueRef true);;
    match value p with
    | None => activateLabel p
    | Some _ => mret ()
    end
  else modify (set_hasValueRef false).

(** What can happen to a mounted input. *)
Inductive Action : Type :=
| LabelEffect (p : Props) (isInputAutoFilled : bool)
| ValueSync (p : Props)
| SetValue (p : Props) (newValue : string)
| Focus (fuel : nat) (p : Props)
| Blur (p : Props).

Definition action_props (a : Action) : Props :=
  match a with
  | LabelEffect p _ | ValueSync p | SetValue p _ | Focus _ p | Blur p => p
  end.

(** A reaction runs after a render of the props it belongs to, which reads
    the cells as they are by then. *)
Definition perform (a : Action) : Act Refs Event () :=
  match a with
  | LabelEffect p autofilled => λ s, labelEffect {| props := p; held := s |} autofilled s
  | ValueSync p => valueSyncEffect p
  | SetValue p newValue => setValue p newValue
  | Focus fuel p => onFocus fuel p;; mret ()
  | Blur p => onBlur p
  end.

Fixpoint performAll (actions : list Action) : Act Refs Event () :=
  match actions with
  | [] => mret ()
  | a :: actions' => perform a;; performAll actions'
  end.

Definition is_animateLabel (e : Event) : bool :=
  match e with animateLabel _ _ => true | _ => false end.

End Label.

(** *** The text of the hidden element used for measuring *)

(** A string as its UTF-16 code units. *)
Definition LINE_FEED : N := 10.
Definition ZERO_WIDTH_SPACE : N := 8203.

(** [value ? `${value}${value.endsWith('\n') ? '\u200B' : ''}` : placeholder] *)
Definition measuredText (value : option (list N)) (placeholder : list N) : list N :=
  match value with
  | Some (c :: v) =>
      (c :: v) ++ (if last (c :: v) === Some LINE_FEED then [ZERO_WIDTH_SPACE] else [])
  | Some [] | None => placeholder
  end.

End BaseTextInputLabel.

(** ** More sample data *)

Module MoreSamples.

Import OnyxTypes ReportActionsView ReportActionsViewEffects.

(** A one-transaction report whose thread actions have not arrived: the
    thread report [T] is attached, the merged sequence is [a2; a1]. *)
Definition threadUnheld : Render := {|
  report := Sample.chat;
  transactionThreadReport := Some Sample.thread;
  allReportActions := [Sample.a2; Sample.a1];
  transactionThreadReportActions := [];
  isLoadingInitialReportActions := false;
  isLoadingOlderReportActions := false;
  isLoadingNewerReportActions := false;
  isReadyForCommentLinking := true;
  reportActionID := None;
  network := Sample.online;
  windowHeight := 800;
  isFocused := true;
  held := Sample.freshCells
|}.

(** A deep link to an identifier that is not in the chat. *)
Definition linkedToMissing : Render := Sample.with_link "9" Sample.plain.

(** First render of a deep link to entry 20 of [longChat]. *)
Definition linkedLongFirstRender : Render :=
  Sample.with_link "03" (Sample.with_actions Sample.longChat Sample.plain).

Definition someProps : Props := {|
  props_report := Sample.chat;
  props_transactionThreadReport := None;
  props_session := Some {| authTokenType := None |};
  props_parentReportAction := None;
  props_reportActions := Some [Sample.a2; Sample.a1];
  props_transactionThreadReportActions := [];
  props_isLoadingInitialReportActions := Some false;
  props_isLoadingOlderReportActions := Some false;
  props_isLoadingNewerReportActions := Some false;
  props_isReadyForCommentLinking := Some true
|}.

(** The same props once the transaction thread report has arrived. *)
Definition somePropsWithThread : Props := {|
  props_report := Sample.chat;
  props_transactionThreadReport := Some Sample.thread;
  props_session := Some {| authTokenType := None |};
  props_parentReportAction := None;
  props_reportActions := Some [Sample.a2; Sample.a1];
  props_transactionThreadReportActions := [];
  props_isLoadingInitialReportActions := Some false;
  props_isLoadingOlderReportActions := Some false;
  props_isLoadingNewerReportActions := Some false;
  props_isReadyForCommentLinking := Some true
|}.

(** An uncontrolled text input with a change handler and nothing else. *)
Definition plainInput : BaseTextInputLabel.Props := {|
  BaseTextInputLabel.value := None;
  BaseTextInputLabel.defaultValue := None;
  BaseTextInputLabel.forceActiveLabel := false;
  BaseTextInputLabel.prefixCharacter := None;
  BaseTextInputLabel.has_onFocus := false;
  BaseTextInputLabel.has_onBlur := false;
  BaseTextInputLabel.has_onChangeText := true
|}.

(** The same input with an [onFocus] handler. *)
Definition handledInput : BaseTextInputLabel.Props := {|
  BaseTextInputLabel.value := None;
  BaseTextInputLabel.defaultValue := None;
  BaseTextInputLabel.forceActiveLabel := false;
  BaseTextInputLabel.prefixCharacter := None;
  BaseTextInputLabel.has_onFocus := true;
  BaseTextInputLabel.has_onBlur := false;
  BaseTextInputLabel.has_onChangeText := true
|}.

(** A room-name input: controlled, empty, with the prefix character. *)
Definition roomNameInput : BaseTextInputLabel.Props := {|
  BaseTextInputLabel.value := Some "";
  BaseTextInputLabel.defaultValue := None;
  BaseTextInputLabel.forceActiveLabel := false;
  BaseTextInputLabel.prefixCharacter := Some "#";
  BaseTextInputLabel.has_onFocus := false;
  BaseTextInputLabel.has_onBlur := true;
  BaseTextInputLabel.has_onChangeText := true
|}.

Definition blurredRefs : BaseTextInputLabel.Refs := {|
  BaseTextInputLabel.isLabelActive := false;
  BaseTextInputLabel.hasValueRef := false;
  BaseTextInputLabel.isFocused := true
|}.

(** What happens to the room-name input: it is rendered, typed into, blurred
    and rendered again. *)
Definition roomNameSession : list BaseTextInputLabel.Action :=
  [ BaseTextInputLabel.LabelEffect roomNameInput false;
    BaseTextInputLabel.SetValue roomNameInput "general";
    BaseTextInputLabel.Blur roomNameInput;
    BaseTextInputLabel.ValueSync roomNameInput;
    BaseTextInputLabel.LabelEffect roomNameInput false ].

End MoreSamples.

(** ** Array methods *)

Section ArrayFacts.

Context {A : Type}.

Lemma slice_nonneg (k : Z) (l : list A) :
  0 ≤ k → JS.slice k l = drop (Z.to_nat k) l.
Proof.
  intros Hk. unfold JS.slice.
  destruct (Z.ltb_spec k 0) as [?|_]; [lia|].
  destruct (Z.le_gt_cases k (Z.of_nat (length l))) as [Hle|Hgt].
  - by rewrite Z.min_l.
  - rewrite Z.min_r by lia. rewrite Nat2Z.id.
    rewrite !drop_ge; [done| lia | lia].
Qed.

Lemma findIndex_from_lower (p : A → bool) (l : list A) (i : Z) :
  0 ≤ i → JS.findIndex_from p i l = -1 ∨ i ≤ JS.findIndex_from p i l.
Proof.
  revert i. induction l as [|x l IH]; intros i Hi; simpl; [by left|].
  destruct (p x); [right; lia|].
  destruct (IH (i + 1)) as [->|?]; [lia|by left|right; lia].
Qed.

(** When some element satisfies the predicate, the index returned is that of
    the first such element. *)
Lemma findIndex_from_first (p : A → bool) (l : list A) (i : Z) :
  (∃ x, x ∈ l ∧ p x = true) →
  ∃ before x after,
    l = before ++ x :: after
    ∧ p x = true
    ∧ Forall (λ y, p y = false) before
    ∧ JS.findIndex_from p i l = i + Z.of_nat (length before).
Proof.
  revert i. induction l as [|y l IH]; intros i (x & Hin & Hp).
  - by apply elem_of_nil in Hin.
  - simpl. destruct (p y) eqn:Hy.
    + exists [], y, l. repeat split; [done|constructor|simpl; lia].
    + assert (∃ x, x ∈ l ∧ p x = true) as Hex.
      { apply elem_of_cons in Hin as [->|Hin]; [congruence|eauto]. }
      destruct (IH (i + 1) Hex) as (before & z & after & -> & Hz & Hall & Hidx).
      exists (y :: before), z, after. repeat split; [done|by constructor|].
      rewrite Hidx. simpl length. lia.
Qed.

(** Conversely, a non-negative index points at an element satisfying the
    predicate, with none before it. *)
Lemma findIndex_from_inv (p : A → bool) (l : list A) (i : Z) (n : nat) :
  JS.findIndex_from p i l = i + Z.of_nat n → 0 ≤ i →
  ∃ x, l !! n = Some x ∧ p x = true ∧ Forall (λ y, p y = false) (take n l).
Proof.
  revert i n. induction l as [|y l IH]; intros i n Hidx Hi; simpl in Hidx; [lia|].
  destruct (p y) eqn:Hy.
  - assert (n = 0%nat) as -> by lia. exists y. repeat split; [done|constructor].
  - destruct n as [|n].
    + destruct (findIndex_from_lower p l (i + 1)) as [?|?]; lia.
    + destruct (IH (i + 1) n) as (x & Hx & Hpx & Hall); [lia|lia|].
      exists x. repeat split; [done..|]. simpl. by constructor.
Qed.

End ArrayFacts.

(** ** The window selector *)

Section Window.

Import OnyxTypes ReportActionsView.

Context (lib : Imports).

Lemma truthy_Some (target : string) : target ≠ "" → JS.truthy (Some target) = true.
Proof.
  intros Hne. unfold JS.truthy, JS.strict_eq.
  by rewrite bool_decide_eq_false_2.
Qed.

Lemma indexOfLinkedAction_found (r : Render) (i : nat) :
  indexOfLinkedAction lib r = Z.of_nat i →
  JS.truthy (reportActionID r) = true ∧ isLoading r = false.
Proof.
  unfold indexOfLinkedAction.
  destruct (JS.truthy (reportActionID r)); simpl; [|lia].
  destruct (isLoading r); [lia|done].
Qed.

(** C4 (as amended).  On the first render with a deep-link target that is
    present in the merged sequence, and with the loading and readiness guards
    passed, the window is exactly the suffix of the merged sequence that
    starts at the first entry carrying the target identifier.  The merged
    sequence is held newest first, so the target becomes the newest held
    entry, every entry before it (the newer ones) is left out, and the window
    runs on to the oldest entry of the merged sequence. *)
Theorem first_render_window_is_suffix_from_target (r : Render) (target : string) :
  reportActionID r = Some target → target ≠ "" →
  isLoading r = false →
  isFirstLinkedActionRender (held r) = true →
  target ∈ map OnyxTypes.reportActionID (combinedReportActions lib r) →
  ∃ newer linked older,
    combinedReportActions lib r = newer ++ linked :: older
    ∧ OnyxTypes.reportActionID linked = target
    ∧ Forall (λ a, OnyxTypes.reportActionID a ≠ target) newer
    ∧ reportActions lib r = linked :: older
    ∧ newestReportAction lib r = Some linked
    ∧ oldestReportAction lib r = JS.at_last (combinedReportActions lib r).
Proof.
  intros Hid Hne Hload Hfirst Hin.
  pose proof (truthy_Some target Hne) as Htruthy.
  set (p := λ obj : ReportAction, OnyxTypes.reportActionID obj === target).
  assert (∃ x, x ∈ combinedReportActions lib r ∧ p x = true) as Hex.
  { apply list_elem_of_fmap in Hin as (x & -> & Hx). exists x. split; [done|].
    unfold p, JS.strict_eq. by apply bool_decide_eq_true_2. }
  destruct (findIndex_from_first p _ 0 Hex)
    as (newer & linked & older & Hmerged & Hp & Hnewer & Hidx).
  assert (indexOfLinkedAction lib r = Z.of_nat (length newer)) as Hindex.
  { unfold indexOfLinkedAction. rewrite Hid, Htruthy, Hload, Hfirst. simpl.
    unfold JS.findIndex. fold p. rewrite Hidx. lia. }
  assert (reportActions lib r = linked :: older) as Hwindow.
  { unfold reportActions. rewrite Hid, Htruthy, Hload, Hfirst, Hindex. simpl.
    unfold JS.strict_eq at 1. rewrite bool_decide_eq_false_2 by lia.
    rewrite slice_nonneg by lia. rewrite Nat2Z.id, Hmerged.
    by rewrite drop_app_length. }
  exists newer, linked, older. split_and!; [done| | |done| |].
  - unfold p, JS.strict_eq in Hp. by apply bool_decide_eq_true_1 in Hp.
  - eapply Forall_impl; [exact Hnewer|]. intros a Ha. unfold p, JS.strict_eq in Ha.
    by apply bool_decide_eq_false_1 in Ha.
  - unfold newestReportAction. by rewrite Hwindow.
  - unfold oldestReportAction, JS.at_last. rewrite Hwindow, Hmerged.
    by rewrite last_app_cons.
Qed.

(** C5.  On a later render (first-render flag cleared), when the search for
    the current pointer returns an index [i], the window is the suffix of the
    merged sequence that starts at [max 0 (i - getInitialPaginationSize)];
    the entry at [i] is the one carrying the current pointer. *)
Theorem later_render_window_is_buffered_suffix (r : Render) (i : nat) :
  isFirstLinkedActionRender (held r) = false →
  indexOfLinkedAction lib r = Z.of_nat i →
  reportActions lib r
  = drop (Z.to_nat (Z.max 0 (Z.of_nat i - getInitialPaginationSize lib)))
         (combinedReportActions lib r)
  ∧ ∃ a, combinedReportActions lib r !! i = Some a
         ∧ OnyxTypes.reportActionID a = currentReportActionID (held r).
Proof.
  intros Hfirst Hindex.
  destruct (indexOfLinkedAction_found r i Hindex) as [Htruthy Hload].
  split.
  - unfold reportActions. rewrite Htruthy, Hload, Hfirst, Hindex. simpl.
    unfold JS.strict_eq at 1. rewrite bool_decide_eq_false_2 by lia.
    rewrite slice_nonneg by lia. by rewrite Z.max_comm.
  - unfold indexOfLinkedAction in Hindex.
    rewrite Htruthy, Hload, Hfirst in Hindex. simpl in Hindex.
    destruct (findIndex_from_inv _ _ 0 i Hindex) as (a & Ha & Hp & _); [lia|].
    exists a. split; [done|]. unfold JS.strict_eq in Hp.
    by apply bool_decide_eq_true_1 in Hp.
Qed.

End Window.

(** ** The fetch triggers *)

Section FetchTrigger.

Import OnyxTypes ReportActionsView.

Context (lib : Imports).

Ltac run :=
  unfold mbind, mret, Run_bind, Run_ret, call, read, write, throw, defined in *;
  simpl in *.

Lemma hasNewestReportAction_intro (r : Render) (newest : ReportAction) :
  newestReportAction lib r = Some newest →
  Some (created newest) = lastVisibleActionCreated (report r)
  ∨ (∃ thread, transactionThreadReport r = Some thread
               ∧ Some (created newest) = lastVisibleActionCreated thread) →
  hasNewestReportAction lib r = true.
Proof.
  unfold newestReportAction, hasNewestReportAction, JS.strict_eq.
  intros -> [Heq|(thread & -> & Heq)]; simpl; apply orb_true_iff.
  - left. by apply bool_decide_eq_true_2.
  - right. by apply bool_decide_eq_true_2.
Qed.

Lemma hasNewestReportAction_elim (r : Render) (newest : ReportAction) :
  newestReportAction lib r = Some newest →
  hasNewestReportAction lib r = true →
  Some (created newest) = lastVisibleActionCreated (report r)
  ∨ (∃ thread, transactionThreadReport r = Some thread
               ∧ Some (created newest) = lastVisibleActionCreated thread).
Proof.
  unfold newestReportAction, hasNewestReportAction, JS.strict_eq.
  intros -> [Heq|Heq]%orb_true_iff; apply bool_decide_eq_true_1 in Heq; simpl in Heq.
  - by left.
  - right. destruct (transactionThreadReport r) as [thread|]; [|done].
    exists thread. by split.
Qed.

Lemma fetchNewerAction_in_flight (r : Render) (newest : option ReportAction) (c : Cells) :
  isLoadingNewerReportActions r || isLoadingInitialReportActions r = true →
  fetchNewerAction lib r newest c = (mret () : Run ()) c.
Proof. intros H. unfold fetchNewerAction. by rewrite H. Qed.

(** C3.  [loadOlderChats] issues nothing while the client is offline or an
    older or initial fetch is in flight; and it issues nothing when the
    oldest entry of the window is the CREATED action, whatever the network
    state is. *)
Theorem loadOlderChats_issues_nothing_when_guarded (r : Render) (c : Cells) :
  (isOffline (network r) = true
   ∨ isLoadingOlderReportActions r = true
   ∨ isLoadingInitialReportActions r = true →
   issued (loadOlderChats lib r c) = [])
  ∧ ((∃ oldest, oldestReportAction lib r = Some oldest
                ∧ actionName oldest = ACTIONS_TYPE_CREATED lib) →
     issued (loadOlderChats lib r c) = []).
Proof.
  split.
  - intros Hguard. unfold loadOlderChats.
    assert (isOffline (network r) || isLoadingOlderReportActions r
            || isLoadingInitialReportActions r = true) as ->; [|done].
    destruct Hguard as [-> | [-> | ->]]; by rewrite ?orb_true_r.
  - intros (oldest & Holdest & Hname). unfold loadOlderChats.
    destruct (_ || _ || _); [done|]. rewrite Holdest.
    assert (hasCreatedAction lib r = true) as ->; [|done].
    unfold hasCreatedAction, JS.strict_eq. rewrite Holdest. simpl.
    apply bool_decide_eq_true_2. by rewrite Hname.
Qed.

(** What [loadOlderChats] issues once its guards have passed and a
    transaction thread report is attached. *)
Lemma loadOlderChats_with_thread (r : Render) (c : Cells) (oldest : ReportAction) (thread : Report) :
  isOffline (network r) = false →
  isLoadingOlderReportActions r = false →
  isLoadingInitialReportActions r = false →
  oldestReportAction lib r = Some oldest →
  actionName oldest ≠ ACTIONS_TYPE_CREATED lib →
  transactionThreadReport r = Some thread →
  let own := JS.findLast (λ item, item_reportID item === Some (reportID r))
                         (reportActionIDMap lib r) in
  let other := JS.findLast (λ item, item_reportID item === Some (OnyxTypes.reportID thread))
                           (reportActionIDMap lib r) in
  issued (loadOlderChats lib r c)
  = [ getNewerActions (default "0" (own ≫= item_reportID))
                      (default "0" (item_reportActionID <$> own));
      getNewerActions (default "0" (other ≫= item_reportID))
                      (default "0" (item_reportActionID <$> other)) ].
Proof.
  intros Hnet Holder Hinit Holdest Hname Hthread. unfold loadOlderChats.
  rewrite Hnet, Holder, Hinit, Holdest, Hthread. simpl.
  assert (hasCreatedAction lib r = false) as ->; [|done].
  unfold hasCreatedAction, JS.strict_eq. rewrite Holdest. simpl.
  apply bool_decide_eq_false_2. congruence.
Qed.

(** The sibling path, without a transaction thread report. *)
Lemma loadOlderChats_without_thread (r : Render) (c : Cells) (oldest : ReportAction) :
  isOffline (network r) = false →
  isLoadingOlderReportActions r = false →
  isLoadingInitialReportActions r = false →
  oldestReportAction lib r = Some oldest →
  actionName oldest ≠ ACTIONS_TYPE_CREATED lib →
  transactionThreadReport r = None →
  issued (loadOlderChats lib r c)
  = [ getOlderActions (reportID r) (OnyxTypes.reportActionID oldest) ].
Proof.
  intros Hnet Holder Hinit Holdest Hname Hthread. unfold loadOlderChats.
  rewrite Hnet, Holder, Hinit, Holdest, Hthread. simpl.
  assert (hasCreatedAction lib r = false) as ->; [|done].
  unfold hasCreatedAction, JS.strict_eq. rewrite Holdest. simpl.
  apply bool_decide_eq_false_2. congruence.
Qed.

Lemma loadOlderChats_completes (r : Render) (c : Cells) :
  completes (loadOlderChats lib r c) = true.
Proof.
  unfold loadOlderChats, completes.
  repeat case_match; done.
Qed.

Lemma handleReportActionPagination_issued (r : Render) (id : string) (c : Cells) :
  issued (handleReportActionPagination lib r id c)
  = if hasMoreCached lib r then []
    else issued (fetchNewerAction lib r (newestReportAction lib r)
                                  (set_isFirstLinkedActionRender false c)).
Proof.
  unfold handleReportActionPagination.
  destruct (hasMoreCached lib r); run.
  - by destruct (isFirstLinkedActionRender c).
  - destruct (fetchNewerAction _ _ _ _) as [[[]|e] c' calls]; simpl; [|done].
    destruct (isFirstLinkedActionRender c'); simpl; by rewrite !app_nil_r.
Qed.

(** [loadNewerChats], with the sequencing written out. *)
Lemma loadNewerChats_unfold (r : Render) (c : Cells) :
  loadNewerChats lib r c =
  if isLoadingInitialReportActions r || isLoadingOlderReportActions r || isOffline (network r)
  then (mret () : Run ()) c
  else
    match newestReportAction lib r with
    | None => throw (JS.TypeError "Cannot read properties of undefined (reading 'pendingAction')") c
    | Some newest =>
        if pendingAction newest === Some (PENDING_ACTION_DELETE lib) then (mret () : Run ()) c
        else
          let isLoadingOlderReportsFirstNeeded :=
            (contentListHeight c <? windowHeight r - DIFF_BETWEEN_SCREEN_HEIGHT_AND_LIST - SPACER)
            && (23 <? length (reportActions lib r))%nat in
          if (JS.truthy (reportActionID r) && (-1 <? indexOfLinkedAction lib r)
              && negb (hasNewestReportAction lib r) && negb isLoadingOlderReportsFirstNeeded)
             || (negb (JS.truthy (reportActionID r))
                 && negb (hasNewestReportAction lib r) && negb isLoadingOlderReportsFirstNeeded)
          then handleReportActionPagination lib r (OnyxTypes.reportActionID newest) c
          else (mret () : Run ()) c
    end.
Proof.
  unfold loadNewerChats, checkIfContentSmallerThanList.
  destruct (_ || _ || _); [done|].
  destruct (newestReportAction lib r) as [newest|]; run; [|done].
  destruct (_ === _); [done|]. simpl.
  destruct (_ || _); [|done].
  by destruct (handleReportActionPagination _ _ _ _).
Qed.

(** C2.  [loadNewerChats] issues no request when an initial, older or newer
    fetch is in flight, when the client is offline, when the newest held
    action is pending deletion, or when the creation timestamp of the newest
    held entry equals the last-visible-action timestamp of the report or of
    the transaction thread report. *)
Theorem loadNewerChats_issues_nothing_when_guarded (r : Render) (c : Cells) :
  isLoadingInitialReportActions r = true
  ∨ isLoadingOlderReportActions r = true
  ∨ isLoadingNewerReportActions r = true
  ∨ isOffline (network r) = true
  ∨ (∃ newest, newestReportAction lib r = Some newest
               ∧ pendingAction newest = Some (PENDING_ACTION_DELETE lib))
  ∨ (∃ newest, newestReportAction lib r = Some newest
               ∧ (Some (created newest) = lastVisibleActionCreated (report r)
                  ∨ ∃ thread, transactionThreadReport r = Some thread
                              ∧ Some (created newest) = lastVisibleActionCreated thread)) →
  issued (loadNewerChats lib r c) = [].
Proof.
  intros Hguard. rewrite loadNewerChats_unfold.
  destruct (_ || _ || _) eqn:Hearly; [done|].
  destruct Hguard as [H|[H|[H|[H|[H|H]]]]].
  - by rewrite H in Hearly.
  - by rewrite H, orb_true_r in Hearly.
  - clear Hearly. destruct (newestReportAction lib r) as [newest|]; [|done].
    destruct (_ === _); [done|]. simpl.
    destruct (_ || _); [|done].
    rewrite handleReportActionPagination_issued.
    destruct (hasMoreCached lib r); [done|].
    rewrite fetchNewerAction_in_flight; [done|by rewrite H].
  - by rewrite H, orb_true_r in Hearly.
  - destruct H as (newest & -> & Hpending). rewrite Hpending.
    unfold JS.strict_eq. by rewrite bool_decide_eq_true_2.
  - destruct H as (newest & Hnewest & Hstamp).
    rewrite (hasNewestReportAction_intro r newest Hnewest Hstamp), Hnewest.
    destruct (_ === _); [done|]. simpl.
    by rewrite !andb_false_r.
Qed.

(** C6.  When the content is shorter than the viewport and the window holds
    more than 23 entries, [loadNewerChats] leaves every cell as it was (in
    particular the current pointer) and issues nothing. *)
Theorem loadNewerChats_suppressed_when_older_first (r : Render) (c : Cells) :
  contentListHeight c < windowHeight r - DIFF_BETWEEN_SCREEN_HEIGHT_AND_LIST - SPACER →
  (23 < length (reportActions lib r))%nat →
  cells (loadNewerChats lib r c) = c
  ∧ issued (loadNewerChats lib r c) = [].
Proof.
  intros Hshort Hmany. rewrite loadNewerChats_unfold.
  destruct (_ || _ || _); [done|].
  destruct (newestReportAction lib r) as [newest|]; [|done].
  destruct (_ === _); [done|]. simpl.
  assert ((contentListHeight c <? windowHeight r - DIFF_BETWEEN_SCREEN_HEIGHT_AND_LIST - SPACER)
          && (23 <? length (reportActions lib r))%nat = true) as ->.
  { apply andb_true_iff. split; [by apply Z.ltb_lt|by apply Nat.ltb_lt]. }
  simpl. by rewrite !andb_false_r.
Qed.

Lemma fetchNewerAction_completes (r : Render) (newest : ReportAction) (c : Cells) :
  completes (fetchNewerAction lib r (Some newest) c) = true.
Proof.
  unfold fetchNewerAction, completes.
  destruct (_ || _); [done|].
  by destruct (transactionThreadReport r).
Qed.

Lemma handleReportActionPagination_completes (r : Render) (id : string) (c : Cells) :
  reportActions lib r ≠ [] →
  completes (handleReportActionPagination lib r id c) = true.
Proof.
  intros Hwindow. unfold handleReportActionPagination, newestReportAction, JS.first.
  destruct (reportActions lib r) as [|newest window] eqn:Heq; [done|]. simpl.
  destruct (hasMoreCached lib r); run.
  - by destruct (isFirstLinkedActionRender c).
  - pose proof (fetchNewerAction_completes r newest (set_isFirstLinkedActionRender false c)) as Hok.
    unfold completes in *.
    destruct (fetchNewerAction _ _ _ _) as [[[]|e] c' calls]; simpl in *; [|done].
    by destruct (isFirstLinkedActionRender c').
Qed.

(** C9 (as amended).  [loadNewerChats] reads [pendingAction] of the newest
    entry without guarding against a missing entry, but only after the
    initial-fetch, older-fetch and offline checks have all failed.  With a
    non-empty window it always completes.  With an empty window it completes,
    without the read, exactly when one of those checks holds, and otherwise
    throws a TypeError.  The component returns [null] exactly when the window
    is empty, so every [loadNewerChats] it hands out completes.
    [loadOlderChats] guards the missing oldest entry: it always completes and
    issues nothing on an empty window. *)
Theorem loadNewerChats_defined_where_exposed (r : Render) :
  (reportActions lib r ≠ [] → ∀ c, completes (loadNewerChats lib r c) = true)
  ∧ (reportActions lib r = [] → ∀ c,
       if isLoadingInitialReportActions r || isLoadingOlderReportActions r
          || isOffline (network r)
       then loadNewerChats lib r c = (mret () : Run ()) c
       else ∃ message,
              completion (loadNewerChats lib r c) = Throw (JS.TypeError message)
              ∧ issued (loadNewerChats lib r c) = [])
  ∧ (ReportActionsView lib r = None ↔ reportActions lib r = [])
  ∧ (∀ out, ReportActionsView lib r = Some out →
       list_loadNewerChats out = loadNewerChats lib r
       ∧ ∀ c, completes (list_loadNewerChats out c) = true)
  ∧ (∀ c, completes (loadOlderChats lib r c) = true)
  ∧ (reportActions lib r = [] → ∀ c, issued (loadOlderChats lib r c) = []).
Proof.
  assert (reportActions lib r ≠ [] → ∀ c, completes (loadNewerChats lib r c) = true) as Hsafe.
  { intros Hwindow c. rewrite loadNewerChats_unfold.
    destruct (_ || _ || _); [done|].
    unfold newestReportAction, JS.first.
    destruct (reportActions lib r) as [|newest window] eqn:Heq; [done|]. simpl.
    destruct (_ === _); [done|].
    destruct (_ || _); [|done].
    apply handleReportActionPagination_completes. by rewrite Heq. }
  split_and!.
  - exact Hsafe.
  - intros Hempty c. rewrite loadNewerChats_unfold.
    destruct (_ || _ || _); [done|].
    unfold newestReportAction. rewrite Hempty. simpl. eauto.
  - unfold ReportActionsView. destruct (reportActions lib r); simpl; split; done.
  - intros out Hout. unfold ReportActionsView in Hout.
    destruct (reportActions lib r) as [|newest window] eqn:Heq; simpl in Hout; [done|].
    injection Hout as <-. simpl. split; [done|]. intros c. by apply Hsafe.
  - apply loadOlderChats_completes.
  - intros Hempty c. unfold loadOlderChats, oldestReportAction. rewrite Hempty. simpl.
    by destruct (_ || _ || _).
Qed.

(** C10.  Whenever the component renders the list with auto-scroll enabled,
    the creation timestamp of the newest held entry equals the
    last-visible-action timestamp of the report or of the transaction thread
    report, and there is no deep-link target or the navigation to it has
    settled. *)
Theorem autoscroll_enabled_only_at_newest (r : Render) (out : ListProps) :
  ReportActionsView lib r = Some out →
  list_shouldEnableAutoScrollToTopThreshold out = true →
  (∃ newest, newestReportAction lib r = Some newest
             ∧ (Some (created newest) = lastVisibleActionCreated (report r)
                ∨ ∃ thread, transactionThreadReport r = Some thread
                            ∧ Some (created newest) = lastVisibleActionCreated thread))
  ∧ (JS.truthy (reportActionID r) = false ∨ isNavigatingToLinkedMessage (held r) = false).
Proof.
  intros Hout Hauto. unfold ReportActionsView in Hout.
  destruct (reportActions lib r) as [|newest window] eqn:Heq; simpl in Hout; [done|].
  injection Hout as <-. simpl in Hauto. unfold shouldEnableAutoScroll in Hauto.
  apply andb_true_iff in Hauto as [Hnewest Hsettled].
  assert (newestReportAction lib r = Some newest) as Hfirst.
  { unfold newestReportAction. by rewrite Heq. }
  split.
  - exists newest. split; [done|]. by apply hasNewestReportAction_elim.
  - apply orb_true_iff in Hsettled as [H|H]; apply negb_true_iff in H; auto.
Qed.

(** The network reaction, on a transition from offline to online. *)
Lemma networkEffect_back_online (r : Render) (c : Cells) :
  isOffline (prevNetworkRef c) = true →
  isOffline (network r) = false →
  issued (networkEffect lib r c)
  = if shouldFetchReport lib (report r) then
      if isReportFullyVisible lib r
      then [openReport (reportID r) (reportActionID r)]
      else [reconnect (reportID r)]
    else [].
Proof.
  intros Hprev Hnow. unfold networkEffect, openReportIfNecessary, reconnectReportIfNecessary.
  run. rewrite Hprev, Hnow. simpl.
  destruct (isReportFullyVisible lib r), (shouldFetchReport lib (report r)); done.
Qed.

(** C7 (as amended).  On a transition of the network signal from offline to
    online: if [shouldFetchReport] accepts the report, a fully visible screen
    gets exactly one [openReport] call and no [reconnect] call, and a screen
    that is not fully visible gets exactly one [reconnect] call and no
    [openReport] call; if [shouldFetchReport] declines, nothing is issued.
    The previous-network cell then holds the current signal, so running the
    reaction again issues nothing. *)
Theorem network_back_online_reconciles (r : Render) (c : Cells) :
  isOffline (prevNetworkRef c) = true →
  isOffline (network r) = false →
  let calls := issued (networkEffect lib r c) in
  (shouldFetchReport lib (report r) = true → isReportFullyVisible lib r = true →
   calls = [openReport (reportID r) (reportActionID r)]
   ∧ count_calls is_openReport calls = 1%nat ∧ count_calls is_reconnect calls = 0%nat)
  ∧ (shouldFetchReport lib (report r) = true → isReportFullyVisible lib r = false →
     calls = [reconnect (reportID r)]
     ∧ count_calls is_openReport calls = 0%nat ∧ count_calls is_reconnect calls = 1%nat)
  ∧ (shouldFetchReport lib (report r) = false → calls = [])
  ∧ issued (networkEffect lib r (cells (networkEffect lib r c))) = [].
Proof.
  intros Hprev Hnow calls. subst calls. rewrite networkEffect_back_online by done.
  split_and!.
  - by intros -> ->.
  - by intros -> ->.
  - by intros ->.
  - unfold networkEffect, openReportIfNecessary, reconnectReportIfNecessary.
    run. rewrite Hprev, Hnow. simpl.
    destruct (isReportFullyVisible lib r), (shouldFetchReport lib (report r));
      simpl; by rewrite Hnow.
Qed.

End FetchTrigger.

(** ** The padding lookup *)

Section CharacterPadding.

Import BaseTextInput.

(** C8.  For every prefix other than the mapped key the lookup throws an
    error whose message names the prefix; for the mapped key it returns the
    padding 10. *)
Theorem getCharacterPadding_throws_on_unmapped_prefix (ROOM_PREFIX prefix : string) :
  (prefix ≠ ROOM_PREFIX →
   getCharacterPadding ROOM_PREFIX prefix
   = Throw (JS.Error ("Prefix " +:+ prefix +:+ " has no padding assigned.")))
  ∧ getCharacterPadding ROOM_PREFIX ROOM_PREFIX = Normal 10.
Proof.
  unfold getCharacterPadding, JS.strict_eq. split.
  - intros Hne. by rewrite bool_decide_eq_false_2.
  - by rewrite bool_decide_eq_true_2.
Qed.

End CharacterPadding.

(** ** Concrete runs *)

Section Runs.

Import OnyxTypes ReportActionsView.

(** C1.  With a transaction thread report attached and every guard passed,
    [loadOlderChats] issues two requests, one per report and each anchored at
    the oldest held action of that report, but both are requests for the
    NEWER page ([getNewerActions]); no [getOlderActions] request is issued.
    The same state without the thread report requests the older page. *)
Theorem loadOlderChats_with_thread_requests_newer_pages :
  issued (loadOlderChats Sample.imports Sample.withThread Sample.freshCells)
  = [getNewerActions "R" "2"; getNewerActions "T" "71"]
  ∧ count_calls is_getOlderActions
      (issued (loadOlderChats Sample.imports Sample.withThread Sample.freshCells)) = 0%nat
  ∧ issued (loadOlderChats Sample.imports Sample.plain Sample.freshCells)
    = [getOlderActions "R" "1"].
Proof. split_and!; reflexivity. Qed.

(** C4, as first stated, fails: on the first render of a deep link to [a2] in
    the newest-first sequence [a3; a2; a1] the window is [a2; a1].  The
    newest entry [a3] is not in it, and [a1], created before the target, is. *)
Lemma first_render_window_stops_at_target_not_newest :
  reportActionID Sample.linkedFirstRender = Some "2"
  ∧ isLoading Sample.linkedFirstRender = false
  ∧ isFirstLinkedActionRender (held Sample.linkedFirstRender) = true
  ∧ combinedReportActions Sample.imports Sample.linkedFirstRender
    = [Sample.a3; Sample.a2; Sample.a1]
  ∧ reportActions Sample.imports Sample.linkedFirstRender = [Sample.a2; Sample.a1]
  ∧ (Sample.a3 ∉ reportActions Sample.imports Sample.linkedFirstRender)
  ∧ (Sample.a1 ∈ reportActions Sample.imports Sample.linkedFirstRender)
  ∧ String.ltb (created Sample.a1) (created Sample.a2) = true
  ∧ String.ltb (created Sample.a2) (created Sample.a3) = true.
Proof.
  split_and!; try reflexivity.
  - intros Hin. vm_compute in Hin.
    apply elem_of_cons in Hin as [?|Hin]; [done|].
    apply elem_of_cons in Hin as [?|Hin]; [done|].
    by apply elem_of_nil in Hin.
  - vm_compute. apply list_elem_of_further, list_elem_of_here.
Qed.

(** C7, as first stated, fails: the network comes back while the screen is
    fully visible, [shouldFetchReport] declines the report, and no
    [openReport] call is issued. *)
Lemma network_back_online_may_issue_nothing :
  isOffline (prevNetworkRef Sample.wasOfflineCells) = true
  ∧ isOffline (network Sample.plain) = false
  ∧ isReportFullyVisible Sample.importsDeclining Sample.plain = true
  ∧ issued (networkEffect Sample.importsDeclining Sample.plain Sample.wasOfflineCells) = []
  ∧ count_calls is_openReport
      (issued (networkEffect Sample.importsDeclining Sample.plain Sample.wasOfflineCells))
    ≠ 1%nat.
Proof. split_and!; try reflexivity. vm_compute. discriminate. Qed.

(** C9, as first stated, fails: with an empty window on an offline client
    [loadNewerChats] returns before the read of [pendingAction] and
    completes normally. *)
Lemma loadNewerChats_returns_before_the_read :
  reportActions Sample.imports Sample.emptyOffline = []
  ∧ newestReportAction Sample.imports Sample.emptyOffline = None
  ∧ completion (loadNewerChats Sample.imports Sample.emptyOffline Sample.freshCells)
    = Normal ().
Proof. split_and!; reflexivity. Qed.

End Runs.

(** ** The theorems at concrete states *)

Section Instances.

Import OnyxTypes ReportActionsView.

Lemma loadNewerChats_issues_nothing_at_newest :
  issued (loadNewerChats Sample.imports Sample.plain Sample.freshCells) = [].
Proof.
  apply (loadNewerChats_issues_nothing_when_guarded Sample.imports Sample.plain Sample.freshCells).
  do 5 right. exists Sample.a3. split; [reflexivity|]. left. reflexivity.
Defined.

Lemma loadOlderChats_issues_nothing_offline_or_at_created :
  issued (loadOlderChats Sample.imports (Sample.with_network Sample.offline Sample.plain)
                         Sample.freshCells) = []
  ∧ issued (loadOlderChats Sample.imports (Sample.with_actions [Sample.a1; Sample.a0] Sample.plain)
                           Sample.freshCells) = [].
Proof.
  split.
  - apply (proj1 (loadOlderChats_issues_nothing_when_guarded
                    Sample.imports (Sample.with_network Sample.offline Sample.plain)
                    Sample.freshCells)).
    left. reflexivity.
  - apply (proj2 (loadOlderChats_issues_nothing_when_guarded
                    Sample.imports (Sample.with_actions [Sample.a1; Sample.a0] Sample.plain)
                    Sample.freshCells)).
    exists Sample.a0. split; reflexivity.
Defined.

Lemma first_render_window_at_linked_chat :
  ∃ newer linked older,
    combinedReportActions Sample.imports Sample.linkedFirstRender = newer ++ linked :: older
    ∧ OnyxTypes.reportActionID linked = "2"
    ∧ Forall (λ a, OnyxTypes.reportActionID a ≠ "2") newer
    ∧ reportActions Sample.imports Sample.linkedFirstRender = linked :: older
    ∧ newestReportAction Sample.imports Sample.linkedFirstRender = Some linked
    ∧ oldestReportAction Sample.imports Sample.linkedFirstRender
      = JS.at_last (combinedReportActions Sample.imports Sample.linkedFirstRender).
Proof.
  apply (first_render_window_is_suffix_from_target Sample.imports Sample.linkedFirstRender "2").
  - reflexivity.
  - discriminate.
  - reflexivity.
  - reflexivity.
  - vm_compute. apply list_elem_of_further, list_elem_of_here.
Defined.

Lemma later_render_window_at_long_chat :
  reportActions Sample.imports Sample.linkedLaterRender
  = drop 5 (combinedReportActions Sample.imports Sample.linkedLaterRender)
  ∧ ∃ a, combinedReportActions Sample.imports Sample.linkedLaterRender !! 20%nat = Some a
         ∧ OnyxTypes.reportActionID a = "03".
Proof.
  apply (later_render_window_is_buffered_suffix Sample.imports Sample.linkedLaterRender 20).
  - reflexivity.
  - reflexivity.
Defined.

Lemma loadNewerChats_suppressed_at_long_chat :
  cells (loadNewerChats Sample.imports (Sample.with_actions Sample.longChat Sample.plain)
                        Sample.freshCells) = Sample.freshCells
  ∧ issued (loadNewerChats Sample.imports (Sample.with_actions Sample.longChat Sample.plain)
                           Sample.freshCells) = [].
Proof.
  apply (loadNewerChats_suppressed_when_older_first
           Sample.imports (Sample.with_actions Sample.longChat Sample.plain) Sample.freshCells).
  - reflexivity.
  - vm_compute. lia.
Defined.

Lemma network_back_online_at_visible_chat :
  issued (networkEffect Sample.imports Sample.plain Sample.wasOfflineCells)
  = [openReport "R" None]
  ∧ count_calls is_openReport
      (issued (networkEffect Sample.imports Sample.plain Sample.wasOfflineCells)) = 1%nat
  ∧ count_calls is_reconnect
      (issued (networkEffect Sample.imports Sample.plain Sample.wasOfflineCells)) = 0%nat.
Proof.
  apply (proj1 (network_back_online_reconciles
                  Sample.imports Sample.plain Sample.wasOfflineCells eq_refl eq_refl));
    reflexivity.
Defined.

Lemma getCharacterPadding_at_unmapped_prefix :
  BaseTextInput.getCharacterPadding "#" "@"
  = Throw (JS.Error "Prefix @ has no padding assigned.").
Proof.
  apply (proj1 (getCharacterPadding_throws_on_unmapped_prefix "#" "@")).
  discriminate.
Defined.

Lemma loadNewerChats_defined_at_chat_and_not_at_empty :
  completes (loadNewerChats Sample.imports Sample.plain Sample.freshCells) = true
  ∧ ∃ message,
      completion (loadNewerChats Sample.imports Sample.emptyOnline Sample.freshCells)
      = Throw (JS.TypeError message)
      ∧ issued (loadNewerChats Sample.imports Sample.emptyOnline Sample.freshCells) = [].
Proof.
  split.
  - apply (proj1 (loadNewerChats_defined_where_exposed Sample.imports Sample.plain)).
    discriminate.
  - apply (proj1 (proj2 (loadNewerChats_defined_where_exposed Sample.imports Sample.emptyOnline))
             eq_refl Sample.freshCells).
Defined.

Lemma autoscroll_enabled_at_newest_of_chat :
  ∃ newest,
    newestReportAction Sample.imports Sample.plain = Some newest
    ∧ (Some (created newest) = lastVisibleActionCreated (report Sample.plain)
       ∨ ∃ thread, transactionThreadReport Sample.plain = Some thread
                   ∧ Some (created newest) = lastVisibleActionCreated thread).
Proof.
  eapply (proj1 (autoscroll_enabled_only_at_newest Sample.imports Sample.plain _ eq_refl eq_refl)).
Defined.

End Instances.

(** ** The window across renders, and what the pagination callbacks issue *)

Section Pagination.

Import OnyxTypes ReportActionsView ReportActionsViewEffects.

Context (lib : Imports).

Ltac unfold_run :=
  unfold mbind, mret, Run_bind, Run_ret, call, read, write, throw, defined in *;
  simpl in *.

Lemma slice_suffix {A : Type} (k : Z) (l : list A) : JS.slice k l `suffix_of` l.
Proof. unfold JS.slice. apply suffix_drop. Qed.

Lemma findIndex_from_upper {A : Type} (p : A → bool) (l : list A) (i : Z) (n : nat) (x : A) :
  l !! n = Some x → p x = true →
  i ≤ JS.findIndex_from p i l ≤ i + Z.of_nat n.
Proof.
  revert i n. induction l as [|y l IH]; intros i n Hx Hp; [done|].
  simpl. destruct (p y) eqn:Hy; [lia|].
  destruct n as [|n]; simpl in Hx; [congruence|].
  specialize (IH (i + 1) n Hx Hp). lia.
Qed.

Lemma indexOfLinkedAction_lower (r : Render) : -1 ≤ indexOfLinkedAction lib r.
Proof.
  unfold indexOfLinkedAction. destruct (_ || _); [lia|].
  unfold JS.findIndex.
  destruct (findIndex_from_lower
              (λ obj, OnyxTypes.reportActionID obj
                      === (if isFirstLinkedActionRender (held r)
                           then JS.String_ (reportActionID r)
                           else currentReportActionID (held r)))
              (combinedReportActions lib r) 0) as [->| ?]; lia.
Qed.

Lemma window_suffix (r : Render) :
  reportActions lib r `suffix_of` combinedReportActions lib r.
Proof.
  unfold reportActions.
  destruct (JS.truthy (reportActionID r)); simpl; [|done].
  destruct (_ || _); [apply suffix_nil|].
  destruct (isFirstLinkedActionRender (held r)); apply slice_suffix.
Qed.

(** X1.  In every state the window is a suffix of the merged sequence.  It
    is the whole merged sequence when there is no deep-link target, and it is
    empty when a target is present but the screen is still loading or the
    search finds nothing. *)
Theorem window_is_suffix_of_merged (r : Render) :
  reportActions lib r `suffix_of` combinedReportActions lib r
  ∧ (JS.truthy (reportActionID r) = false →
     reportActions lib r = combinedReportActions lib r)
  ∧ (JS.truthy (reportActionID r) = true →
     isLoading r = true ∨ indexOfLinkedAction lib r = -1 →
     reportActions lib r = []).
Proof.
  split_and!; [apply window_suffix| |]; unfold reportActions.
  - by intros ->.
  - intros -> Hor. simpl.
    assert (isLoading r || (indexOfLinkedAction lib r === -1) = true) as ->; [|done].
    destruct Hor as [-> | ->]; [done|]. by rewrite orb_true_r.
Qed.

(** X2.  [hasMoreCached] is false exactly when the window already is the
    whole merged sequence. *)
Theorem hasMoreCached_false_iff_whole (r : Render) :
  hasMoreCached lib r = false ↔ reportActions lib r = combinedReportActions lib r.
Proof.
  unfold hasMoreCached. rewrite Nat.ltb_ge. split.
  - intros Hlen. destruct (window_suffix r) as [newer Hmerged].
    rewrite Hmerged in Hlen. rewrite length_app in Hlen.
    destruct newer; [done|]. simpl in Hlen. lia.
  - by intros ->.
Qed.

(** A non-empty window ends where the merged sequence ends. *)
Lemma oldest_of_window_is_oldest_of_merged (r : Render) :
  reportActions lib r ≠ [] →
  oldestReportAction lib r = JS.at_last (combinedReportActions lib r).
Proof.
  intros Hne. unfold oldestReportAction, JS.at_last.
  destruct (window_suffix r) as [newer ->].
  destruct (reportActions lib r) as [|a w]; [done|].
  by rewrite last_app_cons.
Qed.

(** X3.  Without a transaction thread report and with the guards passed,
    [loadOlderChats] issues exactly one [getOlderActions] request, anchored
    at the oldest entry of the whole merged sequence (whatever part of it the
    window shows), and changes no cell. *)
Theorem loadOlderChats_anchors_at_oldest_of_merged (r : Render) (c : Cells) (oldest : ReportAction) :
  isOffline (network r) = false →
  isLoadingOlderReportActions r = false →
  isLoadingInitialReportActions r = false →
  transactionThreadReport r = None →
  reportActions lib r ≠ [] →
  JS.at_last (combinedReportActions lib r) = Some oldest →
  actionName oldest ≠ ACTIONS_TYPE_CREATED lib →
  loadOlderChats lib r c
  = {| completion := Normal ();
       cells := c;
       issued := [getOlderActions (reportID r) (OnyxTypes.reportActionID oldest)] |}.
Proof.
  intros Hnet Holder Hinit Hthread Hne Hlast Hname.
  rewrite <- (oldest_of_window_is_oldest_of_merged r Hne) in Hlast.
  unfold loadOlderChats. rewrite Hnet, Holder, Hinit, Hlast, Hthread. simpl.
  assert (hasCreatedAction lib r = false) as ->; [|done].
  unfold hasCreatedAction, JS.strict_eq. rewrite Hlast. simpl.
  apply bool_decide_eq_false_2. congruence.
Qed.

(** X4.  The pagination callbacks only ever ask for pages: [loadOlderChats]
    issues at most two calls, none of them [openReport] or [reconnect], and
    never changes a cell; [loadNewerChats] issues at most two calls, all of
    them [getNewerActions]. *)
Theorem pagination_callbacks_only_request_pages (r : Render) (c : Cells) :
  (cells (loadOlderChats lib r c) = c
   ∧ (length (issued (loadOlderChats lib r c)) ≤ 2)%nat
   ∧ Forall (λ call, is_getOlderActions call || is_getNewerActions call = true)
            (issued (loadOlderChats lib r c)))
  ∧ ((length (issued (loadNewerChats lib r c)) ≤ 2)%nat
     ∧ Forall (λ call, is_getNewerActions call = true) (issued (loadNewerChats lib r c))).
Proof.
  split.
  - unfold loadOlderChats.
    destruct (_ || _ || _); [by repeat split; simpl; try lia|].
    destruct (oldestReportAction lib r); [|by repeat split; simpl; try lia].
    destruct (hasCreatedAction lib r); [by repeat split; simpl; try lia|].
    destruct (transactionThreadReport r); unfold_run;
      (split_and!; [done|lia|by repeat constructor]).
  - rewrite loadNewerChats_unfold.
    destruct (_ || _ || _); [by split; simpl; try lia|].
    destruct (newestReportAction lib r); [|by split; simpl; try lia].
    destruct (_ === _); [by split; simpl; try lia|]. simpl.
    destruct (_ || _); [|by split; simpl; try lia].
    rewrite handleReportActionPagination_issued.
    destruct (hasMoreCached lib r); [by split; simpl; try lia|].
    unfold fetchNewerAction.
    destruct (_ || _); [by split; simpl; try lia|].
    destruct (transactionThreadReport r); unfold_run.
    + split; [lia|by repeat constructor].
    + destruct (ReportActionsView.newestReportAction lib r); simpl;
        (split; [lia|by repeat constructor]).
Qed.

Lemma fetchNewerAction_run (r : Render) (newest : ReportAction) (c : Cells) :
  fetchNewerAction lib r (Some newest) c
  = {| completion := Normal (); cells := c;
       issued :=
         if isLoadingNewerReportActions r || isLoadingInitialReportActions r then []
         else
           match transactionThreadReport r with
           | Some thread =>
               let own := JS.find (λ item, item_reportID item === Some (reportID r))
                                  (reportActionIDMap lib r) in
               let other := JS.find (λ item, item_reportID item
                                             === Some (OnyxTypes.reportID thread))
                                    (reportActionIDMap lib r) in
               [ getNewerActions (default "0" (own ≫= item_reportID))
                                 (default "0" (item_reportActionID <$> own));
                 getNewerActions (default "0" (other ≫= item_reportID))
                                 (default "0" (item_reportActionID <$> other)) ]
           | None => [getNewerActions (reportID r) (OnyxTypes.reportActionID newest)]
           end |}.
Proof.
  unfold fetchNewerAction. destruct (_ || _); [done|].
  by destruct (transactionThreadReport r).
Qed.

Lemma handleReportActionPagination_run (r : Render) (id : string) (c : Cells) (newest : ReportAction) :
  newestReportAction lib r = Some newest →
  handleReportActionPagination lib r id c
  = {| completion := Normal ();
       cells := set_currentReportActionID id (set_isFirstLinkedActionRender false c);
       issued :=
         if hasMoreCached lib r then []
         else issued (fetchNewerAction lib r (Some newest) c) |}.
Proof.
  intros Hnewest. unfold handleReportActionPagination. rewrite Hnewest.
  destruct (hasMoreCached lib r); unfold_run.
  - by destruct c as [[] ? ? ? ?].
  - rewrite !fetchNewerAction_run. simpl. by rewrite !app_nil_r.
Qed.

Lemma nonempty_window_found (r : Render) (newest : ReportAction) :
  newestReportAction lib r = Some newest →
  JS.truthy (reportActionID r) = true →
  isLoading r = false ∧ 0 ≤ indexOfLinkedAction lib r.
Proof.
  unfold newestReportAction, reportActions. intros Hnewest Htruthy.
  rewrite Htruthy in Hnewest. simpl in Hnewest.
  destruct (isLoading r); [done|]. simpl in Hnewest. split; [done|].
  unfold JS.strict_eq in Hnewest.
  destruct (bool_decide_reflect (indexOfLinkedAction lib r = -1)) as [?|Hne]; [done|].
  pose proof (indexOfLinkedAction_lower r). lia.
Qed.

(** X5.  When none of its guards applies, [loadNewerChats] completes, moves
    the current pointer to the newest held entry and clears the first-render
    flag.  It issues nothing while the window is smaller than the merged
    sequence or a newer fetch is in flight; otherwise it asks for the page
    after the newest held entry, or, with a transaction thread report, for one
    page per report anchored at the newest held entry of each. *)
Theorem loadNewerChats_advances_pointer (r : Render) (c : Cells) (newest : ReportAction) :
  isLoadingInitialReportActions r = false →
  isLoadingOlderReportActions r = false →
  isOffline (network r) = false →
  newestReportAction lib r = Some newest →
  pendingAction newest ≠ Some (PENDING_ACTION_DELETE lib) →
  hasNewestReportAction lib r = false →
  (contentListHeight c <? windowHeight r - DIFF_BETWEEN_SCREEN_HEIGHT_AND_LIST - SPACER)
  && (23 <? length (reportActions lib r))%nat = false →
  loadNewerChats lib r c
  = {| completion := Normal ();
       cells := set_currentReportActionID (OnyxTypes.reportActionID newest)
                  (set_isFirstLinkedActionRender false c);
       issued :=
         if hasMoreCached lib r || isLoadingNewerReportActions r then []
         else
           match transactionThreadReport r with
           | Some thread =>
               let own := JS.find (λ item, item_reportID item === Some (reportID r))
                                  (reportActionIDMap lib r) in
               let other := JS.find (λ item, item_reportID item
                                             === Some (OnyxTypes.reportID thread))
                                    (reportActionIDMap lib r) in
               [ getNewerActions (default "0" (own ≫= item_reportID))
                                 (default "0" (item_reportActionID <$> own));
                 getNewerActions (default "0" (other ≫= item_reportID))
                                 (default "0" (item_reportActionID <$> other)) ]
           | None => [getNewerActions (reportID r) (OnyxTypes.reportActionID newest)]
           end |}.
Proof.
  intros Hinit Holder Hnet Hnewest Hpending Hnotnewest Hfirst.
  rewrite loadNewerChats_unfold. rewrite Hinit, Holder, Hnet, Hnewest. simpl.
  unfold JS.strict_eq at 1. rewrite bool_decide_eq_false_2 by done.
  rewrite Hnotnewest, Hfirst. simpl.
  assert (JS.truthy (reportActionID r) && (-1 <? indexOfLinkedAction lib r) && true && true
          || negb (JS.truthy (reportActionID r)) && true && true = true) as ->.
  { destruct (JS.truthy (reportActionID r)) eqn:Htruthy; [|done]. simpl.
    destruct (nonempty_window_found r newest Hnewest Htruthy) as [_ Hidx].
    rewrite !andb_true_r, orb_false_r. apply Z.ltb_lt. lia. }
  rewrite (handleReportActionPagination_run r _ c newest Hnewest).
  rewrite fetchNewerAction_run. simpl. rewrite Hinit, orb_false_r.
  by destruct (hasMoreCached lib r), (isLoadingNewerReportActions r).
Qed.

End Pagination.

(** ** Anchors, reactions and the memo comparison *)

Section Reactions.

Import OnyxTypes ReportActionsView ReportActionsViewEffects.

Context (lib : Imports).

Ltac unfold_cells :=
  unfold mbind, mret, Run_bind, Run_ret, call, read, write, throw, defined in *;
  simpl in *.

Lemma includes_elem_of (ids : list string) (x : string) :
  x ∈ ids → JS.includes ids x = true.
Proof.
  intros Hin. unfold JS.includes. apply existsb_exists. exists x. split.
  - by apply list_elem_of_In.
  - unfold JS.strict_eq. by apply bool_decide_eq_true_2.
Qed.

Lemma find_all_false {A : Type} (p : A → bool) (l : list A) :
  Forall (λ x, p x = false) l → List.find p l = None.
Proof. induction 1 as [|x l Hx _ IH]; simpl; [done|]. by rewrite Hx. Qed.

Lemma find_rev_last {A : Type} (p : A → bool) (l : list A) (x : A) :
  last l = Some x → p x = true → List.find p (rev l) = Some x.
Proof.
  intros Hlast Hp. apply last_Some in Hlast as [l' ->].
  rewrite rev_app_distr. simpl. by rewrite Hp.
Qed.

(** When every held entry belongs to the current report, so does every entry
    of [reportActionIDMap]. *)
Lemma reportActionIDMap_own (r : Render) :
  Forall (λ a, OnyxTypes.reportActionID a ∈ map OnyxTypes.reportActionID (allReportActions r))
         (reportActions lib r) →
  reportActionIDMap lib r
  = map (λ a, {| item_reportActionID := OnyxTypes.reportActionID a;
                 item_reportID := Some (reportID r) |})
        (reportActions lib r).
Proof.
  intros Hall. unfold reportActionIDMap.
  induction Hall as [|a w Ha _ IH]; simpl; [done|].
  rewrite (includes_elem_of _ _ Ha). by rewrite IH.
Qed.

(** X6.  With a transaction thread report attached whose actions are not
    among the held entries, the request [loadOlderChats] issues for the
    thread report carries the placeholder identifiers ['0'] and ['0'], and
    the request for the current report is anchored at the oldest held
    entry. *)
Theorem loadOlderChats_placeholder_for_unheld_thread
    (r : Render) (c : Cells) (oldest : ReportAction) (thread : Report) :
  isOffline (network r) = false →
  isLoadingOlderReportActions r = false →
  isLoadingInitialReportActions r = false →
  oldestReportAction lib r = Some oldest →
  actionName oldest ≠ ACTIONS_TYPE_CREATED lib →
  transactionThreadReport r = Some thread →
  OnyxTypes.reportID thread ≠ reportID r →
  Forall (λ a, OnyxTypes.reportActionID a ∈ map OnyxTypes.reportActionID (allReportActions r))
         (reportActions lib r) →
  issued (loadOlderChats lib r c)
  = [ getNewerActions (reportID r) (OnyxTypes.reportActionID oldest);
      getNewerActions "0" "0" ].
Proof.
  intros Hnet Holder Hinit Holdest Hname Hthread Hother Hall.
  rewrite (loadOlderChats_with_thread lib r c oldest thread) by done.
  rewrite (reportActionIDMap_own r Hall). unfold JS.findLast.
  set (own := λ a, {| item_reportActionID := OnyxTypes.reportActionID a;
                      item_reportID := Some (reportID r) |}).
  rewrite (find_rev_last _ _ (own oldest)).
  - rewrite find_all_false; [done|].
    apply Forall_rev, Forall_fmap, Forall_true. intros a. simpl.
    unfold JS.strict_eq. apply bool_decide_eq_false_2. congruence.
  - unfold oldestReportAction, JS.at_last in Holdest.
    rewrite fmap_last. by rewrite Holdest.
  - unfold JS.strict_eq. by apply bool_decide_eq_true_2.
Qed.

(** X7.  The network reaction always completes and always records the
    current network signal in the previous-network cell, touching no other
    cell; unless the client was offline and is now online, it issues
    nothing. *)
Theorem networkEffect_records_signal (r : Render) (c : Cells) :
  completion (networkEffect lib r c) = Normal ()
  ∧ cells (networkEffect lib r c) = set_prevNetworkRef (network r) c
  ∧ (isOffline (prevNetworkRef c) = false ∨ isOffline (network r) = true →
     issued (networkEffect lib r c) = []).
Proof.
  unfold networkEffect, openReportIfNecessary, reconnectReportIfNecessary.
  unfold_cells.
  destruct (isOffline (prevNetworkRef c)), (isOffline (network r)),
    (isReportFullyVisible lib r), (shouldFetchReport lib (report r));
    simpl; split_and!; try done; intros [?|?]; done.
Qed.

(** On the first render of a deep link whose target is found, the newest
    held entry is the target. *)
Lemma first_render_newest_is_target (r : Render) (target : string) :
  reportActionID r = Some target → target ≠ "" →
  isLoading r = false →
  isFirstLinkedActionRender (held r) = true →
  target ∈ map OnyxTypes.reportActionID (combinedReportActions lib r) →
  ∃ linked, newestReportAction lib r = Some linked
            ∧ OnyxTypes.reportActionID linked = target.
Proof.
  intros Hid Hne Hload Hfirst Hin.
  pose proof (truthy_Some target Hne) as Htruthy.
  set (p := λ obj : ReportAction, OnyxTypes.reportActionID obj === target).
  assert (∃ x, x ∈ combinedReportActions lib r ∧ p x = true) as Hex.
  { apply list_elem_of_fmap in Hin as (x & -> & Hx). exists x. split; [done|].
    unfold p, JS.strict_eq. by apply bool_decide_eq_true_2. }
  destruct (findIndex_from_first p _ 0 Hex)
    as (newer & linked & older & Hmerged & Hp & _ & Hidx).
  exists linked. split.
  - unfold newestReportAction, reportActions, indexOfLinkedAction.
    rewrite Hid, Htruthy, Hload, Hfirst. simpl.
    unfold JS.findIndex. fold p. rewrite Hidx.
    unfold JS.strict_eq at 1. rewrite bool_decide_eq_false_2 by lia.
    rewrite slice_nonneg by lia. rewrite Hmerged.
    replace (Z.to_nat (0 + Z.of_nat (length newer))) with (length newer) by lia.
    by rewrite drop_app_length.
  - unfold p, JS.strict_eq in Hp. by apply bool_decide_eq_true_1 in Hp.
Qed.

(** X8.  On the first render of a deep link whose target is found, the
    navigating reaction sets [isNavigatingToLinkedMessage] at once and defers
    nothing, so the next render of these props passes a disabled auto-scroll
    flag to the list. *)
Theorem linked_first_render_disables_autoscroll (r : Render) (target : string) (c : Cells) :
  reportActionID r = Some target → target ≠ "" →
  isLoading r = false →
  isFirstLinkedActionRender (held r) = true →
  target ∈ map OnyxTypes.reportActionID (combinedReportActions lib r) →
  navigatingEffect lib r c
  = {| completion := Normal None;
       cells := set_isNavigatingToLinkedMessage true c;
       issued := [] |}
  ∧ shouldEnableAutoScroll lib (rerender (cells (navigatingEffect lib r c)) r) = false.
Proof.
  intros Hid Hne Hload Hfirst Hin.
  destruct (first_render_newest_is_target r target Hid Hne Hload Hfirst Hin)
    as (linked & Hnewest & Hlinked).
  assert (isTheFirstReportActionIsLinked lib r = true) as Hfirstlinked.
  { unfold isTheFirstReportActionIsLinked, JS.strict_eq. rewrite Hnewest, Hid. simpl.
    apply bool_decide_eq_true_2. by rewrite Hlinked. }
  assert (navigatingEffect lib r c
          = {| completion := Normal None;
               cells := set_isNavigatingToLinkedMessage true c;
               issued := [] |}) as Hrun.
  { unfold navigatingEffect. by rewrite Hfirstlinked. }
  split; [done|]. rewrite Hrun. unfold shouldEnableAutoScroll. simpl.
  rewrite Hid, (truthy_Some target Hne). simpl. by rewrite andb_false_r.
Qed.

(** X9.  On mount exactly one of the two opening reactions acts.  With a
    deep-link target [openReport] is issued at once, whatever
    [shouldFetchReport] says, and nothing is deferred; without one nothing is
    issued at once and the deferred task issues [openReport] only if
    [shouldFetchReport] accepts the report. *)
Theorem mount_opens_report_at_most_once (r : Render) (c : Cells) :
  (JS.truthy (reportActionID r) = true →
   mountEffect lib r = None
   ∧ issued (linkEffect r c) = [openReport (reportID r) (reportActionID r)])
  ∧ (JS.truthy (reportActionID r) = false →
     issued (linkEffect r c) = []
     ∧ ∃ task, mountEffect lib r = Some task
               ∧ issued (task c)
                 = if shouldFetchReport lib (report r)
                   then [openReport (reportID r) (reportActionID r)]
                   else []).
Proof.
  unfold mountEffect, linkEffect, openReportIfNecessary. split; intros ->; simpl.
  - done.
  - split; [done|]. eexists. split; [done|].
    by destruct (shouldFetchReport lib (report r)).
Qed.

End Reactions.

Section MemoComparison.

Import OnyxTypes ReportActionsViewEffects.

(** X10.  [arePropsEqual] holds exactly when the two sets of props agree on
    the readiness flag, both action lists, the parent action, the auth token
    type of the session, the three loading flags and the report.  The
    transaction thread report is not compared: props that differ only there
    compare equal. *)
Theorem arePropsEqual_compares_all_but_thread_report (old new : Props) :
  arePropsEqual old new = true
  ↔ props_isReadyForCommentLinking old = props_isReadyForCommentLinking new
    ∧ props_reportActions old = props_reportActions new
    ∧ props_transactionThreadReportActions old = props_transactionThreadReportActions new
    ∧ props_parentReportAction old = props_parentReportAction new
    ∧ props_session old ≫= authTokenType = props_session new ≫= authTokenType
    ∧ props_isLoadingInitialReportActions old = props_isLoadingInitialReportActions new
    ∧ props_isLoadingOlderReportActions old = props_isLoadingOlderReportActions new
    ∧ props_isLoadingNewerReportActions old = props_isLoadingNewerReportActions new
    ∧ props_report old = props_report new.
Proof.
  unfold arePropsEqual, lodashIsEqual, JS.strict_eq.
  repeat case_bool_decide; simpl;
    (split; [intros Heq; try discriminate Heq; by split_and!
            |intros (?&?&?&?&?&?&?&?&?); try reflexivity; congruence]).
Qed.

End MemoComparison.

(** ** How the window grows from one render to the next *)

Section WindowGrowth.

Import OnyxTypes ReportActionsView ReportActionsViewEffects.

Context (lib : Imports).

Lemma findIndex_NoDup {A : Type} (f : A → string) (l : list A) (k : nat) (x : A) :
  NoDup (map f l) → l !! k = Some x →
  JS.findIndex (λ y, f y === f x) l = Z.of_nat k.
Proof.
  intros Hnodup Hk. unfold JS.findIndex.
  set (p := λ y, f y === f x).
  assert (p x = true) as Hp by (unfold p, JS.strict_eq; by apply bool_decide_eq_true_2).
  pose proof (findIndex_from_upper p l 0 k x Hk Hp) as Hbound.
  set (n := Z.to_nat (JS.findIndex_from p 0 l)).
  assert (JS.findIndex_from p 0 l = 0 + Z.of_nat n) as Hn by lia.
  destruct (findIndex_from_inv p l 0 n Hn) as (y & Hy & Hpy & _); [lia|].
  unfold p, JS.strict_eq in Hpy. apply bool_decide_eq_true_1 in Hpy.
  assert (n = k) as Heq.
  { apply (NoDup_lookup (map f l) n k (f x) Hnodup).
    - rewrite list_lookup_fmap, Hy. simpl. by rewrite Hpy.
    - by rewrite list_lookup_fmap, Hk. }
  lia.
Qed.

(** The window of a linked render once the pointer sits on the newest held
    entry: the merged sequence from some position at or before the start of
    the previous window. *)
Lemma window_after_pagination (r : Render) (c' : Cells) (newest : ReportAction) :
  JS.truthy (reportActionID r) = true →
  newestReportAction lib r = Some newest →
  isFirstLinkedActionRender c' = false →
  currentReportActionID c' = OnyxTypes.reportActionID newest →
  ∃ newer window i,
    combinedReportActions lib r = newer ++ window
    ∧ reportActions lib r = window
    ∧ JS.findIndex (λ obj, OnyxTypes.reportActionID obj === OnyxTypes.reportActionID newest)
                   (combinedReportActions lib r) = Z.of_nat i
    ∧ combinedReportActions lib r !! length newer = Some newest
    ∧ (i ≤ length newer)%nat
    ∧ reportActions lib (rerender c' r)
      = drop (Z.to_nat (Z.max (Z.of_nat i - getInitialPaginationSize lib) 0))
             (combinedReportActions lib r).
Proof.
  intros Htruthy Hnewest Hflag Hpointer.
  destruct (nonempty_window_found lib r newest Hnewest Htruthy) as [Hload _].
  destruct (window_suffix lib r) as [newer Hmerged].
  assert (combinedReportActions lib r !! length newer = Some newest) as Hat.
  { rewrite Hmerged. rewrite lookup_app_r by lia.
    replace (length newer - length newer)%nat with 0%nat by lia.
    unfold newestReportAction, JS.first in Hnewest. by rewrite <- head_lookup. }
  set (p := λ obj : ReportAction,
              OnyxTypes.reportActionID obj === OnyxTypes.reportActionID newest).
  assert (p newest = true) as Hp
    by (unfold p, JS.strict_eq; by apply bool_decide_eq_true_2).
  pose proof (findIndex_from_upper p _ 0 _ _ Hat Hp) as Hbound.
  exists newer, (reportActions lib r), (Z.to_nat (JS.findIndex_from p 0 (combinedReportActions lib r))).
  split_and!; [done|done|unfold JS.findIndex; fold p; lia|done|lia|].
  unfold reportActions at 1, indexOfLinkedAction. simpl.
  change (isLoading (rerender c' r)) with (isLoading r).
  change (combinedReportActions lib (rerender c' r)) with (combinedReportActions lib r).
  rewrite Htruthy, Hload, Hflag, Hpointer. simpl.
  unfold JS.findIndex. fold p.
  unfold JS.strict_eq at 1. rewrite bool_decide_eq_false_2 by lia.
  rewrite slice_nonneg by lia.
  do 2 f_equal. lia.
Qed.

(** X11.  Once the pointer has been moved to the newest held entry and the
    first-render flag cleared (what [loadNewerChats] does when it paginates),
    the next render of the same props shows a window that ends with the
    previous one: no held entry is lost. *)
Theorem window_grows_after_pagination (r : Render) (c' : Cells) (newest : ReportAction) :
  0 ≤ getInitialPaginationSize lib →
  newestReportAction lib r = Some newest →
  isFirstLinkedActionRender c' = false →
  currentReportActionID c' = OnyxTypes.reportActionID newest →
  reportActions lib r `suffix_of` reportActions lib (rerender c' r).
Proof.
  intros Hsize Hnewest Hflag Hpointer.
  destruct (JS.truthy (reportActionID r)) eqn:Htruthy.
  - destruct (window_after_pagination r c' newest Htruthy Hnewest Hflag Hpointer)
      as (newer & window & i & Hmerged & Hwindow & _ & _ & Hle & ->).
    rewrite Hwindow, Hmerged.
    rewrite drop_app_le by lia. by apply suffix_app_r.
  - unfold reportActions. simpl. by rewrite Htruthy.
Qed.

(** X12.  When the identifiers of the merged sequence are pairwise distinct,
    that next window of a linked render is the previous window extended by
    [getInitialPaginationSize] newer entries, or by all that remain. *)
Theorem window_grows_by_one_page (r : Render) (c' : Cells) (newest : ReportAction) :
  0 ≤ getInitialPaginationSize lib →
  JS.truthy (reportActionID r) = true →
  NoDup (map OnyxTypes.reportActionID (combinedReportActions lib r)) →
  newestReportAction lib r = Some newest →
  isFirstLinkedActionRender c' = false →
  currentReportActionID c' = OnyxTypes.reportActionID newest →
  length (reportActions lib (rerender c' r))
  = (length (combinedReportActions lib r)
     `min` (length (reportActions lib r) + Z.to_nat (getInitialPaginationSize lib)))%nat.
Proof.
  intros Hsize Htruthy Hnodup Hnewest Hflag Hpointer.
  destruct (window_after_pagination r c' newest Htruthy Hnewest Hflag Hpointer)
    as (newer & window & i & Hmerged & Hwindow & Hidx & Hat & Hle & ->).
  rewrite (findIndex_NoDup OnyxTypes.reportActionID _ _ _ Hnodup Hat) in Hidx.
  assert (i = length newer) as -> by lia.
  rewrite length_drop, Hwindow, Hmerged, length_app. lia.
Qed.

End WindowGrowth.

(** ** The throttle *)

Section Throttle.

Import Effectful Sound.

Context {Args : Type} (minExecutionTime : Z).

Local Abbreviation pending := (Some (setTimeout minExecutionTime)).

Lemma processQueue_run (s : Closure (Args := Args)) :
  processQueue minExecutionTime s
  = match queue s with
    | next :: rest =>
        ((), {| queue := rest; timerId := pending |}, [func next; resolve next])
    | [] => ((), {| queue := []; timerId := None |}, [])
    end.
Proof. destruct s as [[|next rest] t]; reflexivity. Qed.

Lemma throttled_run (args : Args) (s : Closure) :
  throttled minExecutionTime args s
  = match timerId s with
    | Some t => ((), {| queue := queue s ++ [args]; timerId := Some t |}, [])
    | None =>
        match queue s ++ [args] with
        | next :: rest =>
            ((), {| queue := rest; timerId := pending |}, [func next; resolve next])
        | [] => ((), {| queue := []; timerId := None |}, [])
        end
    end.
Proof.
  destruct s as [q [t|]];
    unfold throttled, processQueue, mbind, Act_bind, modify, get, emit, mret, Act_ret;
    simpl; [done|].
  by destruct (q ++ [args]).
Qed.

Lemma step_TimerFires_run (s : Closure (Args := Args)) :
  step minExecutionTime TimerFires s
  = match timerId s with
    | Some _ => processQueue minExecutionTime s
    | None => ((), s, [])
    end.
Proof.
  destruct s as [q [t|]]; unfold step, mbind, Act_bind, get; simpl; [|done].
  destruct (processQueue _ _) as [[[] s'] es]. reflexivity.
Qed.

Lemma run_cons (i : Input) (inputs : list Input) (s : Closure (Args := Args)) :
  run minExecutionTime (i :: inputs) s
  = ((),
     state (run minExecutionTime inputs (state (step minExecutionTime i s))),
     events (step minExecutionTime i s)
     ++ events (run minExecutionTime inputs (state (step minExecutionTime i s)))).
Proof.
  simpl. unfold mbind, Act_bind.
  destruct (step _ _ _) as [[[] s1] es1]. simpl.
  destruct (run _ _ _) as [[[] s2] es2]. reflexivity.
Qed.

Lemma run_app_state (xs ys : list Input) (s : Closure (Args := Args)) :
  state (run minExecutionTime (xs ++ ys) s)
  = state (run minExecutionTime ys (state (run minExecutionTime xs s))).
Proof.
  revert s. induction xs as [|i xs IH]; intros s; [done|].
  simpl app. rewrite !run_cons. unfold state in *. cbn [fst snd]. apply IH.
Qed.

(** What one input does to the closure, by cases. *)
Lemma step_cases (i : Input) (s : Closure (Args := Args)) :
  let o := step minExecutionTime i s in
  executed (events o) ++ queue (state o) = queue s ++ calls [i]
  ∧ resolved (events o) = executed (events o)
  ∧ (length (executed (events o)) + idle (state o) ≤ fires [i] + idle s)%nat
  ∧ (settled minExecutionTime s → settled minExecutionTime (state o)).
Proof.
  unfold settled, idle. destruct i as [args|].
  - change (step minExecutionTime (Call args) s) with (throttled minExecutionTime args s).
    rewrite throttled_run. destruct s as [q [t|]]; simpl.
    + split_and!; [done|done|unfold fires; simpl; lia|].
      intros [Ht|[? _]]; [by left|done].
    + destruct q; simpl; split_and!; try done;
        try (unfold fires; simpl; lia); intros _; by left.
  - rewrite step_TimerFires_run. destruct s as [q [t|]]; simpl.
    + rewrite processQueue_run. simpl.
      destruct q; simpl; split_and!; try done;
        try (unfold fires; simpl; lia); try (by rewrite app_nil_r);
        intros _; first [by left|by right].
    + split_and!; try done; [by rewrite app_nil_r|unfold fires; simpl; lia].
Qed.

Lemma calls_cons (i : Input) (inputs : list Input) :
  calls (Args := Args) (i :: inputs) = calls [i] ++ calls inputs.
Proof. by destruct i. Qed.

Lemma fires_cons (i : Input) (inputs : list Input) :
  fires (Args := Args) (i :: inputs) = (fires [i] + fires inputs)%nat.
Proof. unfold fires. destruct i; simpl; [|done]. by rewrite filter_cons_False. Qed.

Lemma executed_app (es1 es2 : list (Event (Args := Args))) :
  executed (es1 ++ es2) = executed es1 ++ executed es2.
Proof. unfold executed. apply omap_app. Qed.

Lemma resolved_app (es1 es2 : list (Event (Args := Args))) :
  resolved (es1 ++ es2) = resolved es1 ++ resolved es2.
Proof. unfold resolved. apply omap_app. Qed.

Lemma run_cases (inputs : list Input) (s : Closure (Args := Args)) :
  let o := run minExecutionTime inputs s in
  executed (events o) ++ queue (state o) = queue s ++ calls inputs
  ∧ resolved (events o) = executed (events o)
  ∧ (length (executed (events o)) + idle (state o) ≤ fires inputs + idle s)%nat
  ∧ (settled minExecutionTime s → settled minExecutionTime (state o)).
Proof.
  revert s. induction inputs as [|i inputs IH]; intros s.
  - simpl. split_and!; try done. by rewrite app_nil_r.
  - cbv zeta. rewrite run_cons, (calls_cons i inputs), (fires_cons i inputs).
    destruct (step_cases i s) as (Hq & Hr & Hn & Hs).
    destruct (IH (state (step minExecutionTime i s))) as (Hq' & Hr' & Hn' & Hs').
    unfold state, events in *. cbn [fst snd] in *.
    rewrite executed_app, resolved_app, length_app.
    split_and!.
    + rewrite <- app_assoc, Hq'. by rewrite !app_assoc, Hq.
    + by rewrite Hr, Hr'.
    + lia.
    + auto.
Qed.

(** X13.  Whatever calls and timer expiries have happened since the throttle
    was created, nothing is lost, duplicated or reordered: the calls executed
    so far followed by the calls still queued are the calls made, in the
    order they were made, and every executed call has had its promise
    resolved. *)
Theorem throttle_executes_calls_in_order (inputs : list Input) :
  let o := run minExecutionTime inputs initial in
  executed (events o) ++ queue (state o) = calls (Args := Args) inputs
  ∧ resolved (events o) = executed (events o).
Proof.
  destruct (run_cases inputs initial) as (Hq & Hr & _). by split.
Qed.

(** X14.  A queued call is never stranded: in every state reached from the
    initial one, if the queue is not empty then a timer with delay
    [minExecutionTime] is pending, and if no timer is pending the queue is
    empty. *)
Theorem throttle_queue_has_pending_timer (inputs : list Input) :
  let s := state (run (Args := Args) minExecutionTime inputs initial) in
  (queue s ≠ [] → timerId s = Some (setTimeout minExecutionTime))
  ∧ (timerId s = None → queue s = []).
Proof.
  destruct (run_cases inputs initial) as (_ & _ & _ & Hs).
  destruct Hs as [Ht|[Ht Hq]]; [by right| |]; cbv zeta.
  - split; [done|]. intros Hnone. congruence.
  - split; [done|auto].
Qed.

(** X15.  Executions are spaced by timer expiries: after any inputs, the
    number of calls executed is at most one more than the number of timer
    expiries. *)
Theorem throttle_spaces_executions (inputs : list Input) :
  (length (executed (events (run (Args := Args) minExecutionTime inputs initial)))
   ≤ fires inputs + 1)%nat.
Proof.
  destruct (run_cases inputs initial) as (_ & _ & Hn & _). unfold idle in Hn. simpl in Hn.
  destruct (timerId _); lia.
Qed.

Lemma run_calls_pending (rest : list Args) (q : list Args) :
  run minExecutionTime (Call <$> rest) {| queue := q; timerId := pending |}
  = ((), {| queue := q ++ rest; timerId := pending |}, []).
Proof.
  revert q. induction rest as [|a rest IH]; intros q.
  - simpl. by rewrite app_nil_r.
  - rewrite fmap_cons, run_cons.
    change (step minExecutionTime (Call a) ?s) with (throttled minExecutionTime a s).
    rewrite throttled_run. simpl.
    unfold state, events. simpl. rewrite IH. simpl. by rewrite <- app_assoc.
Qed.

Lemma run_fires_pending (n : nat) (q : list Args) :
  (n ≤ length q)%nat →
  run minExecutionTime (replicate n TimerFires) {| queue := q; timerId := pending |}
  = ((), {| queue := drop n q; timerId := pending |},
     flat_map (λ a, [func a; resolve a]) (take n q)).
Proof.
  revert q. induction n as [|n IH]; intros q Hn.
  - simpl. by rewrite drop_0.
  - destruct q as [|a q]; simpl in Hn; [lia|].
    simpl replicate. rewrite run_cons, step_TimerFires_run. simpl.
    rewrite processQueue_run. unfold state, events. simpl.
    rewrite IH by lia. reflexivity.
Qed.

Lemma executed_flat_map (l : list Args) :
  executed (flat_map (λ a, [func a; resolve a]) l) = l.
Proof. induction l as [|a l IH]; simpl; [done|]. unfold executed in *. simpl. by rewrite IH. Qed.

(** X16.  A burst of calls made on an idle throttle executes the first call
    at once and queues the others; each later timer expiry executes exactly
    the next queued call, and the expiry after the last one leaves the
    throttle idle again. *)
Theorem throttle_spreads_a_burst (first : Args) (rest : list Args) :
  let burst := run minExecutionTime (Call <$> first :: rest) initial in
  events burst = [func first; resolve first]
  ∧ state burst = {| queue := rest; timerId := Some (setTimeout minExecutionTime) |}
  ∧ (∀ n, (n ≤ length rest)%nat →
       let later := run minExecutionTime (replicate n TimerFires) (state burst) in
       executed (events later) = take n rest
       ∧ state later = {| queue := drop n rest;
                          timerId := Some (setTimeout minExecutionTime) |})
  ∧ state (run minExecutionTime (replicate (S (length rest)) TimerFires) (state burst))
    = initial.
Proof.
  assert (run minExecutionTime (Call <$> first :: rest) initial
          = ((), {| queue := rest; timerId := pending |}, [func first; resolve first]))
    as Hburst.
  { rewrite fmap_cons, run_cons.
    change (step minExecutionTime (Call first) ?s) with (throttled minExecutionTime first s).
    rewrite throttled_run. unfold state, events. cbn [fst snd initial timerId queue app].
    by rewrite run_calls_pending. }
  assert (state (run minExecutionTime (Call <$> first :: rest) initial)
          = {| queue := rest; timerId := pending |}) as Hstate by by rewrite Hburst.
  cbv zeta. rewrite Hstate. split_and!; [by rewrite Hburst|done| |].
  - intros n Hn. rewrite run_fires_pending by done.
    split; [apply executed_flat_map|done].
  - replace (S (length rest)) with (length rest + 1)%nat by lia.
    rewrite replicate_add, run_app_state, run_fires_pending by done.
    unfold state at 2. cbn [fst snd]. rewrite drop_all. reflexivity.
Qed.

End Throttle.

(** ** The label of the text input *)

Section Label.

Import Effectful BaseTextInputLabel.

Context {number : Type}.
Context (ACTIVE_LABEL_TRANSLATE_Y ACTIVE_LABEL_SCALE : number).
Context (INACTIVE_LABEL_TRANSLATE_Y INACTIVE_LABEL_SCALE : number).

Local Abbreviation activateLabel' :=
  (activateLabel ACTIVE_LABEL_TRANSLATE_Y ACTIVE_LABEL_SCALE).
Local Abbreviation deactivateLabel' :=
  (deactivateLabel INACTIVE_LABEL_TRANSLATE_Y INACTIVE_LABEL_SCALE).
Local Abbreviation labelEffect' :=
  (labelEffect ACTIVE_LABEL_TRANSLATE_Y ACTIVE_LABEL_SCALE
               INACTIVE_LABEL_TRANSLATE_Y INACTIVE_LABEL_SCALE).
Local Abbreviation setValue' :=
  (setValue ACTIVE_LABEL_TRANSLATE_Y ACTIVE_LABEL_SCALE).
Local Abbreviation perform' :=
  (perform ACTIVE_LABEL_TRANSLATE_Y ACTIVE_LABEL_SCALE
           INACTIVE_LABEL_TRANSLATE_Y INACTIVE_LABEL_SCALE).
Local Abbreviation performAll' :=
  (performAll ACTIVE_LABEL_TRANSLATE_Y ACTIVE_LABEL_SCALE
              INACTIVE_LABEL_TRANSLATE_Y INACTIVE_LABEL_SCALE).

(** The length test of [activateLabel] can never hold, so only the cell
    decides. *)
Lemma activateLabel_run (p : Props) (s : Refs) :
  activateLabel' p s
  = if isLabelActive s then ((), s, [])
    else ((), set_isLabelActive true s,
          [animateLabel ACTIVE_LABEL_TRANSLATE_Y ACTIVE_LABEL_SCALE]).
Proof.
  unfold activateLabel, mbind, Act_bind, get. simpl.
  assert ((Z.of_nat (String.length (default "" (value p))) <? 0) = false) as ->
    by (apply Z.ltb_ge; lia).
  by destruct (isLabelActive s).
Qed.

Lemma deactivateLabel_run (p : Props) (s : Refs) :
  deactivateLabel' p s
  = if forceActiveLabel p || nonEmpty (default "" (value p)) || JS.truthy (prefixCharacter p)
    then ((), s, [])
    else ((), set_isLabelActive false s,
          [animateLabel INACTIVE_LABEL_TRANSLATE_Y INACTIVE_LABEL_SCALE]).
Proof. unfold deactivateLabel. by destruct (_ || _ || _). Qed.

Lemma onFocus_run (fuel : nat) (p : Props) (s : Refs) :
  onFocus (number := number) fuel p s
  = if has_onFocus p then (false, s, [])
    else match fuel with
         | O => (false, s, [])
         | S _ => (true, set_isFocused true s, [])
         end.
Proof.
  revert s. induction fuel as [|fuel IH]; intros s; simpl.
  - by destruct (has_onFocus p).
  - unfold mbind, Act_bind. destruct (has_onFocus p) eqn:Hprop.
    + by rewrite IH.
    + reflexivity.
Qed.

(** X17.  When an [onFocus] handler is passed to the input, [onFocus] calls
    itself instead of the handler: however deep the call stack may grow it
    never returns normally, never calls the handler and never marks the input
    focused.  Without a handler it marks the input focused. *)
Theorem onFocus_with_handler_never_returns (fuel : nat) (p : Props) (s : Refs) :
  (has_onFocus p = true → onFocus (number := number) fuel p s = (false, s, []))
  ∧ (has_onFocus p = false →
     onFocus (number := number) (S fuel) p s = (true, set_isFocused true s, [])).
Proof. rewrite !onFocus_run. split; by intros ->. Qed.

Lemma labelEffect_run (r : Render) (isInputAutoFilled : bool) (s : Refs) :
  labelEffect' r isInputAutoFilled s
  = if hasValue r || isFocused (held r) || isInputAutoFilled then
      if isLabelActive s then ((), s, [])
      else ((), set_isLabelActive true s,
            [animateLabel ACTIVE_LABEL_TRANSLATE_Y ACTIVE_LABEL_SCALE])
    else if forceActiveLabel (props r) || JS.truthy (prefixCharacter (props r)) then ((), s, [])
    else ((), set_isLabelActive false s,
          [animateLabel INACTIVE_LABEL_TRANSLATE_Y INACTIVE_LABEL_SCALE]).
Proof.
  unfold labelEffect. destruct (hasValue r) eqn:Hvalue; simpl.
  - apply activateLabel_run.
  - destruct (_ || _); [apply activateLabel_run|].
    rewrite deactivateLabel_run.
    unfold hasValue in Hvalue. apply orb_false_iff in Hvalue as [-> _].
    by rewrite orb_false_r.
Qed.

(** X18.  The label reaction activates the label when the input has a value,
    is focused or was auto-filled, animating only if the label was inactive.
    Otherwise it leaves a forced or prefixed label alone, and in every other
    case deactivates the label and starts the animation, even when the label
    already was inactive. *)
Theorem labelEffect_settles_label (r : Render) (isInputAutoFilled : bool) (s : Refs) :
  labelEffect' r isInputAutoFilled s
  = if hasValue r || isFocused (held r) || isInputAutoFilled then
      if isLabelActive s then ((), s, [])
      else ((), set_isLabelActive true s,
            [animateLabel ACTIVE_LABEL_TRANSLATE_Y ACTIVE_LABEL_SCALE])
    else if forceActiveLabel (props r) || JS.truthy (prefixCharacter (props r)) then ((), s, [])
    else ((), set_isLabelActive false s,
          [animateLabel INACTIVE_LABEL_TRANSLATE_Y INACTIVE_LABEL_SCALE]).
Proof. apply labelEffect_run. Qed.

Lemma perform_keeps_forced_label (a : Action) (s : Refs) :
  forceActiveLabel (action_props a) || JS.truthy (prefixCharacter (action_props a)) = true →
  isLabelActive s = true →
  isLabelActive (state (perform' a s)) = true
  ∧ Forall (λ e, is_animateLabel e = false) (events (perform' a s)).
Proof.
  intros Hforced Hactive. destruct a as [p autofilled|p|p newValue|fuel p|p]; simpl in *.
  - unfold labelEffect. simpl.
    destruct (hasValue _ || _ || autofilled).
    + rewrite activateLabel_run, Hactive. by split.
    + rewrite deactivateLabel_run.
      assert (forceActiveLabel p || nonEmpty (default "" (value p))
              || JS.truthy (prefixCharacter p) = true) as ->.
      { apply orb_true_iff in Hforced as [-> | ->]; [done|by rewrite orb_true_r]. }
      by split.
  - unfold valueSyncEffect.
    destruct (bool_decide (value p = None) || JS.truthy (value p)); by split.
  - unfold setValue, mbind, Act_bind, emit, modify, mret, Act_ret. simpl.
    destruct (has_onChangeText p), (nonEmpty newValue); simpl; try (by repeat constructor);
      destruct (value p); simpl; try (by repeat constructor);
      rewrite activateLabel_run; simpl; rewrite Hactive; by repeat constructor.
  - unfold mbind, Act_bind, mret, Act_ret. rewrite onFocus_run.
    destruct (has_onFocus p), fuel; by split.
  - unfold onBlur, mbind, Act_bind, emit, modify, mret, Act_ret.
    destruct (has_onBlur p); simpl; by repeat constructor.
Qed.

Lemma performAll_cons (a : Action) (actions : list Action) (s : Refs) :
  performAll' (a :: actions) s
  = ((),
     state (performAll' actions (state (perform' a s))),
     events (perform' a s) ++ events (performAll' actions (state (perform' a s)))).
Proof.
  simpl. unfold mbind, Act_bind.
  destruct (perform _ _ _ _ _ _) as [[[] s1] es1]. simpl.
  destruct (performAll _ _ _ _ _ _) as [[[] s2] es2]. reflexivity.
Qed.

(** X19.  An input mounted with a forced label or a prefix character has its
    label active from the start, and as long as every later render keeps one
    of the two, nothing that happens to the input (label reactions, value
    changes, focus, blur) deactivates the label or starts a label
    animation. *)
Theorem forced_label_stays_active (p : Props) (actions : list Action) :
  forceActiveLabel p || JS.truthy (prefixCharacter p) = true →
  Forall (λ a, forceActiveLabel (action_props a)
               || JS.truthy (prefixCharacter (action_props a)) = true) actions →
  isLabelActive (mount p) = true
  ∧ isLabelActive (state (performAll' actions (mount p))) = true
  ∧ Forall (λ e, is_animateLabel e = false) (events (performAll' actions (mount p))).
Proof.
  intros Hp Hall.
  assert (isLabelActive (mount p) = true) as Hmount.
  { simpl. unfold initialActiveLabel.
    apply orb_true_iff in Hp as [-> | ->]; [done|by rewrite orb_true_r]. }
  split; [done|]. revert Hmount. generalize (mount p).
  induction Hall as [|a actions Ha _ IH]; intros s Hactive.
  - simpl. by split.
  - rewrite performAll_cons.
    destruct (perform_keeps_forced_label a s Ha Hactive) as [Hstill Hquiet].
    destruct (IH _ Hstill) as [Hend Hquiet'].
    unfold state, events in *. cbn [fst snd] in *. split; [done|].
    by apply Forall_app.
Qed.

(** X20.  For an uncontrolled input without a forced label or prefix, after
    text is entered, the input is blurred and the label reaction has run, the
    label is active exactly when the entered text is not empty, and so is the
    has-value cell. *)
Theorem uncontrolled_label_follows_text (p : Props) (newValue : string) (s : Refs) :
  value p = None →
  forceActiveLabel p = false →
  JS.truthy (prefixCharacter p) = false →
  let typed := state (setValue' p newValue s) in
  let blurred := state (onBlur (number := number) p typed) in
  let settledRefs := state (labelEffect' {| props := p; held := blurred |} false blurred) in
  hasValueRef settledRefs = nonEmpty newValue
  ∧ isLabelActive settledRefs = nonEmpty newValue
  ∧ isFocused settledRefs = false.
Proof.
  intros Hvalue Hforce Hprefix. cbv zeta.
  rewrite labelEffect_run. unfold hasValue. cbn [props held].
  rewrite Hvalue, Hforce, Hprefix.
  unfold setValue, onBlur, mbind, Act_bind, emit, modify, mret, Act_ret. rewrite Hvalue.
  destruct (has_onChangeText p), (has_onBlur p), (nonEmpty newValue) eqn:Htext;
    unfold state; rewrite ?activateLabel_run; cbn;
    destruct (isLabelActive s) eqn:Hactive; cbn; rewrite ?Hactive; cbn; done.
Qed.

End Label.

(** ** The text measured for auto-grow *)

Section MeasuredText.

Import BaseTextInputLabel.

(** X21.  For a non-empty value the measured text starts with the value and
    never ends with a line feed: a value ending with one gets a zero-width
    space appended, any other value is measured as it is.  Without a value
    the placeholder is measured. *)
Theorem measuredText_never_ends_with_line_feed (value : option (list N)) (placeholder : list N) :
  (∀ v, value = Some v → v ≠ [] →
     last (measuredText value placeholder) ≠ Some LINE_FEED
     ∧ (last v ≠ Some LINE_FEED → measuredText value placeholder = v)
     ∧ (last v = Some LINE_FEED → measuredText value placeholder = v ++ [ZERO_WIDTH_SPACE]))
  ∧ (value = None ∨ value = Some [] → measuredText value placeholder = placeholder).
Proof.
  split.
  - intros v -> Hne. destruct v as [|c v]; [done|]. unfold measuredText, JS.strict_eq.
    case_bool_decide as Hlast.
    + split_and!; [|done|done]. rewrite last_snoc. discriminate.
    + rewrite app_nil_r. split_and!; done.
  - by intros [-> | ->].
Qed.

End MeasuredText.

(** ** Further theorems at concrete states *)

Section MoreInstances.

Import OnyxTypes ReportActionsView ReportActionsViewEffects.

Lemma window_whole_without_link_empty_when_missing :
  reportActions Sample.imports Sample.plain
  = combinedReportActions Sample.imports Sample.plain
  ∧ reportActions Sample.imports MoreSamples.linkedToMissing = [].
Proof.
  split.
  - apply (proj1 (proj2 (window_is_suffix_of_merged Sample.imports Sample.plain))).
    reflexivity.
  - apply (proj2 (proj2 (window_is_suffix_of_merged Sample.imports MoreSamples.linkedToMissing))).
    + reflexivity.
    + right. reflexivity.
Defined.

Lemma hasMoreCached_at_plain_chat :
  reportActions Sample.imports Sample.plain
  = combinedReportActions Sample.imports Sample.plain.
Proof.
  apply (proj1 (hasMoreCached_false_iff_whole Sample.imports Sample.plain)).
  reflexivity.
Defined.

Lemma loadOlderChats_at_linked_chat :
  loadOlderChats Sample.imports Sample.linkedFirstRender Sample.freshCells
  = {| completion := Normal ();
       cells := Sample.freshCells;
       issued := [getOlderActions "R" "1"] |}.
Proof.
  apply (loadOlderChats_anchors_at_oldest_of_merged
           Sample.imports Sample.linkedFirstRender Sample.freshCells Sample.a1);
    try reflexivity; discriminate.
Defined.

Lemma loadNewerChats_at_thread_chat :
  loadNewerChats Sample.imports Sample.withThread Sample.freshCells
  = {| completion := Normal ();
       cells := set_currentReportActionID "2"
                  (set_isFirstLinkedActionRender false Sample.freshCells);
       issued := [getNewerActions "R" "2"; getNewerActions "T" "71"] |}.
Proof.
  apply (loadNewerChats_advances_pointer
           Sample.imports Sample.withThread Sample.freshCells Sample.a2);
    try reflexivity; discriminate.
Defined.

Lemma loadOlderChats_at_unheld_thread :
  issued (loadOlderChats Sample.imports MoreSamples.threadUnheld Sample.freshCells)
  = [getNewerActions "R" "1"; getNewerActions "0" "0"].
Proof.
  apply (loadOlderChats_placeholder_for_unheld_thread
           Sample.imports MoreSamples.threadUnheld Sample.freshCells Sample.a1 Sample.thread);
    try reflexivity; try discriminate.
  vm_compute. repeat constructor.
Defined.

Lemma networkEffect_at_steady_network :
  issued (networkEffect Sample.imports Sample.plain Sample.freshCells) = [].
Proof.
  apply (proj2 (proj2 (networkEffect_records_signal
                         Sample.imports Sample.plain Sample.freshCells))).
  left. reflexivity.
Defined.

Lemma autoscroll_disabled_at_linked_chat :
  navigatingEffect Sample.imports Sample.linkedFirstRender Sample.freshCells
  = {| completion := Normal None;
       cells := set_isNavigatingToLinkedMessage true Sample.freshCells;
       issued := [] |}
  ∧ shouldEnableAutoScroll Sample.imports
      (rerender (cells (navigatingEffect Sample.imports Sample.linkedFirstRender
                                         Sample.freshCells))
                Sample.linkedFirstRender) = false.
Proof.
  apply (linked_first_render_disables_autoscroll
           Sample.imports Sample.linkedFirstRender "2" Sample.freshCells).
  - reflexivity.
  - discriminate.
  - reflexivity.
  - reflexivity.
  - vm_compute. apply list_elem_of_further, list_elem_of_here.
Defined.

Lemma mount_at_linked_chat :
  mountEffect Sample.importsDeclining Sample.linkedFirstRender = None
  ∧ issued (linkEffect Sample.linkedFirstRender Sample.freshCells)
    = [openReport "R" (Some "2")].
Proof.
  apply (proj1 (mount_opens_report_at_most_once
                  Sample.importsDeclining Sample.linkedFirstRender Sample.freshCells)).
  reflexivity.
Defined.

Lemma arePropsEqual_at_arriving_thread :
  arePropsEqual MoreSamples.someProps MoreSamples.somePropsWithThread = true.
Proof.
  apply (proj2 (arePropsEqual_compares_all_but_thread_report
                  MoreSamples.someProps MoreSamples.somePropsWithThread)).
  repeat split.
Defined.

Lemma window_grows_at_linked_chat :
  reportActions Sample.imports Sample.linkedFirstRender
  `suffix_of` reportActions Sample.imports
                (rerender (Sample.pointingAt "2") Sample.linkedFirstRender).
Proof.
  apply (window_grows_after_pagination
           Sample.imports Sample.linkedFirstRender (Sample.pointingAt "2") Sample.a2).
  - vm_compute. discriminate.
  - reflexivity.
  - reflexivity.
  - reflexivity.
Defined.

Lemma window_grows_by_one_page_at_long_chat :
  length (reportActions Sample.imports
            (rerender (Sample.pointingAt "03") MoreSamples.linkedLongFirstRender))
  = 19%nat.
Proof.
  apply (window_grows_by_one_page
           Sample.imports MoreSamples.linkedLongFirstRender (Sample.pointingAt "03")
           (Sample.comment "03" "2024-05-01 10:00:03.000")).
  - vm_compute. discriminate.
  - reflexivity.
  - apply (bool_decide_unpack _). vm_compute. reflexivity.
  - reflexivity.
  - reflexivity.
  - reflexivity.
Defined.

Lemma throttle_at_two_sounds :
  Sound.timerId
    (Effectful.state (Sound.run 300 [Sound.Call "done"; Sound.Call "success"] Sound.initial))
  = Some (Sound.setTimeout 300).
Proof.
  apply (proj1 (throttle_queue_has_pending_timer
                  300 [Sound.Call "done"; Sound.Call "success"])).
  vm_compute. discriminate.
Defined.

Lemma throttle_burst_of_three_sounds :
  Sound.executed
    (Effectful.events
       (Sound.run 300 (replicate 2 Sound.TimerFires)
          (Effectful.state
             (Sound.run 300 (Sound.Call <$> ["done"; "success"; "receive"]) Sound.initial))))
  = ["success"; "receive"].
Proof.
  apply (proj1 (proj1 (proj2 (proj2 (throttle_spreads_a_burst
                                       300 "done" ["success"; "receive"]))) 2%nat (le_n 2))).
Defined.

Lemma onFocus_at_handled_input :
  BaseTextInputLabel.onFocus (number := string) 1000 MoreSamples.handledInput
    MoreSamples.blurredRefs
  = (false, MoreSamples.blurredRefs, []).
Proof.
  apply (proj1 (onFocus_with_handler_never_returns
                  1000 MoreSamples.handledInput MoreSamples.blurredRefs)).
  reflexivity.
Defined.

Lemma forced_label_at_room_name_input :
  BaseTextInputLabel.isLabelActive
    (Effectful.state
       (BaseTextInputLabel.performAll "ACTIVE_Y" "ACTIVE_SCALE" "INACTIVE_Y" "INACTIVE_SCALE"
          MoreSamples.roomNameSession (BaseTextInputLabel.mount MoreSamples.roomNameInput)))
  = true.
Proof.
  apply (proj1 (proj2 (forced_label_stays_active
                         "ACTIVE_Y" "ACTIVE_SCALE" "INACTIVE_Y" "INACTIVE_SCALE"
                         MoreSamples.roomNameInput MoreSamples.roomNameSession
                         eq_refl ltac:(repeat constructor)))).
Defined.

Lemma uncontrolled_label_at_typed_text :
  BaseTextInputLabel.isLabelActive
    (Effectful.state
       (BaseTextInputLabel.labelEffect "ACTIVE_Y" "ACTIVE_SCALE" "INACTIVE_Y" "INACTIVE_SCALE"
          {| BaseTextInputLabel.props := MoreSamples.plainInput;
             BaseTextInputLabel.held :=
               Effectful.state
                 (BaseTextInputLabel.onBlur (number := string) MoreSamples.plainInput
                    (Effectful.state
                       (BaseTextInputLabel.setValue "ACTIVE_Y" "ACTIVE_SCALE"
                          MoreSamples.plainInput "hello" MoreSamples.blurredRefs))) |}
          false
          (Effectful.state
             (BaseTextInputLabel.onBlur (number := string) MoreSamples.plainInput
                (Effectful.state
                   (BaseTextInputLabel.setValue "ACTIVE_Y" "ACTIVE_SCALE"
                      MoreSamples.plainInput "hello" MoreSamples.blurredRefs))))))
  = true.
Proof.
  apply (proj1 (proj2 (uncontrolled_label_follows_text
                         "ACTIVE_Y" "ACTIVE_SCALE" "INACTIVE_Y" "INACTIVE_SCALE"
                         MoreSamples.plainInput "hello" MoreSamples.blurredRefs
                         eq_refl eq_refl eq_refl))).
Defined.

Lemma measuredText_at_trailing_line_feed :
  BaseTextInputLabel.measuredText (Some [104%N; 105%N; 10%N]) [63%N]
  = [104%N; 105%N; 10%N; 8203%N].
Proof.
  apply (proj2 (proj2 (proj1 (measuredText_never_ends_with_line_feed
                                (Some [104%N; 105%N; 10%N]) [63%N])
                             [104%N; 105%N; 10%N] eq_refl ltac:(discriminate)))).
  reflexivity.
Defined.

End MoreInstances.
